(** * Sales dashboard by role (stream5.py): aggregation and report pipeline

    A shallow embedding of the data frame operations that [stream5.py]
    performs (loading, filtering, the per-role KPI computations of the live
    view and of [generate_pdf], the age bucketing and the temporary chart
    files of the export), followed by the properties of the specification
    stated over these definitions.

    Conventions.
    - A data frame is a [list Row], in row order. A nullable cell is an
      [option]: [None] stands for NaN / NaT / a missing value.
    - Numeric cells are rationals ([Q]): sums, means and comparisons are the
      exact ones, the rounding of binary floating point is not modelled;
      the colour rule of the gauge, where rounding decides at the tier
      boundaries, is taken on binary64 values ([float]).
    - A point in time is an integer number of seconds ([Z]). *)

From Stdlib Require Import List String Ascii Bool ZArith QArith Lia Lqa Permutation.
From Stdlib Require Import Sorted.
From Stdlib Require Import PrimFloat.

Set Warnings "-inexact-float".
Import ListNotations.

Open Scope string_scope.
Open Scope Z_scope.

(** ** Rows *)

Record Row : Type := mkRow {
  sale_date        : option Z;
  timestamp        : option Z;
  country          : option string;
  salesperson      : option string;
  total_price      : option Q;
  category         : option string;
  product_name     : option string;
  sales_channel    : option string;
  customer_age     : option Q;
  customer_gender  : option string;
  event_type       : option string;
  status_code      : option Z;
  customer_id      : option string;
  customer_type    : option string;
  occupation       : option string;
  session_id       : option string;
  response_time_ms : option Q;
  url_requested    : option string
}.

Definition DataFrame : Type := list Row.

(** ** Cell comparisons (a comparison with a missing value is [False]) *)

Definition Qltb (x y : Q) : bool := negb (Qle_bool y x).

Definition str_eq (c : option string) (s : string) : bool :=
  match c with Some v => String.eqb v s | None => false end.

Definition int_eq (c : option Z) (n : Z) : bool :=
  match c with Some v => Z.eqb v n | None => false end.

Definition num_gt (c : option Q) (q : Q) : bool :=
  match c with Some v => Qltb q v | None => false end.

Definition num_lt (c : option Q) (q : Q) : bool :=
  match c with Some v => Qltb v q | None => false end.

Definition date_ge (c : option Z) (d : Z) : bool :=
  match c with Some v => Z.leb d v | None => false end.

Definition date_le (c : option Z) (d : Z) : bool :=
  match c with Some v => Z.leb v d | None => false end.

(** [omit l] drops the missing values of a column (pandas' [dropna]). *)
Fixpoint omit {A : Type} (l : list (option A)) : list A :=
  match l with
  | [] => []
  | Some a :: l' => a :: omit l'
  | None :: l' => omit l'
  end.

(** ** Filter engine *)

Record FilterCriteria : Type := mkCriteria {
  f_country       : string;
  f_category      : string;
  f_sales_channel : string;
  f_keyword       : string;
  f_salesperson   : option string;
  f_start_date    : Z;
  f_end_date      : Z
}.

(** Python truthiness of [salesperson and salesperson != 'All']. *)
Definition salesperson_selected (sp : option string) : option string :=
  match sp with
  | Some s => if String.eqb s "" then None
              else if String.eqb s "All" then None else Some s
  | None => None
  end.

Definition in_date_range (start_date end_date : Z) (r : Row) : bool :=
  date_ge (sale_date r) start_date && date_le (sale_date r) end_date.

Section Filtering.

(** [str_contains pat cell] is pandas'
    [Series.str.contains(pat, case=False, na=False)] on one cell; the
    pattern matcher belongs to pandas and is kept abstract. *)
Variable str_contains : string -> option string -> bool.

Definition filter_data (df : DataFrame) (country_ category_ sales_channel_ keyword : string)
    (salesperson_ : option string) (start_date end_date : Z) : DataFrame :=
  let filtered_df := df in
  let filtered_df :=
    if negb (String.eqb country_ "All")
    then filter (fun r => str_eq (country r) country_) filtered_df
    else filtered_df in
  let filtered_df :=
    if negb (String.eqb category_ "All")
    then filter (fun r => str_eq (category r) category_) filtered_df
    else filtered_df in
  let filtered_df :=
    if negb (String.eqb sales_channel_ "All")
    then filter (fun r => str_eq (sales_channel r) sales_channel_) filtered_df
    else filtered_df in
  let filtered_df :=
    if negb (String.eqb keyword "")
    then filter (fun r => str_contains keyword (product_name r)
                          || str_contains keyword (url_requested r)) filtered_df
    else filtered_df in
  let filtered_df :=
    match salesperson_selected salesperson_ with
    | Some s => filter (fun r => str_eq (salesperson r) s) filtered_df
    | None => filtered_df
    end in
  filter (in_date_range start_date end_date) filtered_df.

Definition working_subset (df : DataFrame) (c : FilterCriteria) : DataFrame :=
  filter_data df (f_country c) (f_category c) (f_sales_channel c) (f_keyword c)
              (f_salesperson c) (f_start_date c) (f_end_date c).

End Filtering.

(** The "successful sale" mask of line 129, repeated at lines 217-219 and
    463-465. *)
Definition successful_sale (r : Row) : bool :=
  num_gt (total_price r) 0%Q && str_eq (event_type r) "Purchase" && int_eq (status_code r) 200.

(** Line 129: [purchases_df], computed once from [filtered_df]. *)
Definition purchases_of (filtered_df : DataFrame) : DataFrame :=
  filter successful_sale filtered_df.

(** The salesperson paths (lines 214-219 of [generate_pdf], lines 455-465 of
    [salesperson_dashboard]) rebuild their own frames from [filtered_df]. *)
Definition pdf_person_df (filtered_df : DataFrame) (selected_salesperson : option string)
    (start_date end_date : Z) : DataFrame :=
  let person_df :=
    match salesperson_selected selected_salesperson with
    | Some s => filter (fun r => str_eq (salesperson r) s) filtered_df
    | None => filtered_df
    end in
  filter (fun r => date_ge (sale_date r) start_date && date_le (sale_date r) end_date) person_df.

Definition pdf_person_purchases (filtered_df : DataFrame) (selected_salesperson : option string)
    (start_date end_date : Z) : DataFrame :=
  let person_df := pdf_person_df filtered_df selected_salesperson start_date end_date in
  filter (fun r => num_gt (total_price r) 0%Q && str_eq (event_type r) "Purchase"
                   && int_eq (status_code r) 200) person_df.

Definition live_person_df (df : DataFrame) (selected_salesperson : option string)
    (start_date end_date : Z) : DataFrame :=
  let person_df :=
    match salesperson_selected selected_salesperson with
    | Some s => filter (fun r => str_eq (salesperson r) s) df
    | None => df
    end in
  filter (fun r => date_ge (sale_date r) start_date && date_le (sale_date r) end_date) person_df.

Definition live_person_purchases (df : DataFrame) (selected_salesperson : option string)
    (start_date end_date : Z) : DataFrame :=
  let person_df := live_person_df df selected_salesperson start_date end_date in
  filter (fun r => num_gt (total_price r) 0%Q && str_eq (event_type r) "Purchase"
                   && int_eq (status_code r) 200) person_df.

(** ** Series and group-by primitives (pandas semantics) *)

Section Sorting.
Context {A : Type}.
Variable leb : A -> A -> bool.

Fixpoint insert_sorted (x : A) (l : list A) : list A :=
  match l with
  | [] => [x]
  | y :: l' => if leb x y then x :: y :: l' else y :: insert_sorted x l'
  end.

(** Stable insertion sort: an element stays before the later elements it
    is not strictly greater than. *)
Fixpoint sort_by (l : list A) : list A :=
  match l with
  | [] => []
  | x :: l' => insert_sorted x (sort_by l')
  end.
End Sorting.

(** The distinct non-missing values of a key column, ascending: the group
    keys of [groupby(key)] ([sort=True], [dropna=True]). *)
Definition group_keys (key : Row -> option string) (df : DataFrame) : list string :=
  sort_by String.leb (nodup string_dec (omit (map key df))).

(** [df.groupby(key)]: one group per key, keys ascending, the rows of a
    group in frame order. *)
Definition groupby (key : Row -> option string) (df : DataFrame)
  : list (string * DataFrame) :=
  map (fun k => (k, filter (fun r => str_eq (key r) k) df)) (group_keys key df).

Definition Qsum (l : list Q) : Q := fold_right Qplus 0%Q l.

(** [df[col].sum()]: missing values are skipped, the empty sum is 0. *)
Definition col_sum (col : Row -> option Q) (df : DataFrame) : Q :=
  Qsum (omit (map col df)).

(** [series.mean()]: missing values are skipped; NaN ([None]) when nothing
    is left. *)
Definition series_mean (s : list (option Q)) : option Q :=
  match omit s with
  | [] => None
  | v :: vs => Some (Qsum (v :: vs) / inject_Z (Z.of_nat (List.length (v :: vs))))%Q
  end.

(** [df.groupby(key)[col].sum()], as (key, sum) pairs; [reset_index()]
    keeps this order. *)
Definition groupby_sum (key : Row -> option string) (col : Row -> option Q)
    (df : DataFrame) : list (string * Q) :=
  map (fun g => (fst g, col_sum col (snd g))) (groupby key df).

(** [df.groupby(key)[col].mean()]. *)
Definition groupby_mean (key : Row -> option string) (col : Row -> option Q)
    (df : DataFrame) : list (string * option Q) :=
  map (fun g => (fst g, series_mean (map col (snd g)))) (groupby key df).

(** [series.nlargest(n)]: the [n] largest values in descending order, equal
    values in their order of appearance ([keep='first']). *)
Definition nlargest (n : nat) (s : list (string * Q)) : list (string * Q) :=
  firstn n (sort_by (fun a b => Qle_bool (snd b) (snd a)) s).

(** [len(df[col].unique())]: a missing value counts as one more value. *)
Definition option_string_dec (a b : option string) : {a = b} + {a <> b}.
Proof. decide equality. apply string_dec. Defined.

Definition n_unique (col : Row -> option string) (df : DataFrame) : nat :=
  List.length (nodup option_string_dec (map col df)).

(** [series.mode()]: the most frequent non-missing values, ascending; empty
    when every value is missing. *)
Definition count_Z (v : Z) (l : list Z) : nat := count_occ Z.eq_dec l v.

Definition max_count (l : list Z) : nat :=
  fold_right (fun v m => Nat.max (count_Z v l) m) 0%nat l.

Definition mode (s : list (option Z)) : list Z :=
  let vs := omit s in
  sort_by Z.leb (filter (fun v => Nat.eqb (count_Z v vs) (max_count vs)) (nodup Z.eq_dec vs)).

(** Exceptions that the modelled code can raise. *)
Inductive exn : Type :=
| IndexError
| ValueError (msg : string)
| FileNotFoundError
| OSError.

Inductive result (A : Type) : Type :=
| Ok (a : A)
| Raise (e : exn).
Arguments Ok {A} a.
Arguments Raise {A} e.

(** [series.iloc[0]]. *)
Definition iloc0 {A : Type} (s : list A) : result A :=
  match s with
  | a :: _ => Ok a
  | [] => Raise IndexError
  end.

(** [pd.to_datetime(ts).dt.hour]. *)
Definition hour_of (ts : option Z) : option Z :=
  match ts with
  | Some t => Some ((t / 3600) mod 24)
  | None => None
  end.

(** ** Role metric calculators *)

Definition is_empty {A : Type} (l : list A) : bool :=
  match l with [] => true | _ => false end.

(** [s.iloc[0]['key']] and [s.iloc[0]['total_price']] of a grouped sum; the
    callers guard them with [not s.empty]. *)
Definition first_key (s : list (string * Q)) : string :=
  match s with (k, _) :: _ => k | [] => "N/A" end.

Definition first_value (s : list (string * Q)) : Q :=
  match s with (_, v) :: _ => v | [] => 0%Q end.

(** *** Sales Manager *)

Record ManagerKPI : Type := mkManagerKPI {
  m_total_sales           : Q;
  m_top_product           : string;
  m_top_product_sales     : Q;
  m_top_salesperson       : string;
  m_top_salesperson_sales : Q;
  m_demo_requests         : nat
}.

(** Lines 155-162 of [generate_pdf]. *)
Definition pdf_manager_kpis (filtered_df purchases_df : DataFrame) : ManagerKPI :=
  let total_sales := col_sum total_price purchases_df in
  let top_products := nlargest 5 (groupby_sum product_name total_price purchases_df) in
  let sales_by_person := groupby_sum salesperson total_price purchases_df in
  let top_product := if negb (is_empty top_products) then first_key top_products else "N/A" in
  let top_product_sales := if negb (is_empty top_products) then first_value top_products else 0%Q in
  let top_salesperson := if negb (is_empty sales_by_person) then first_key sales_by_person else "N/A" in
  let top_salesperson_sales :=
    if negb (is_empty sales_by_person) then first_value sales_by_person else 0%Q in
  let demo_requests := List.length (filter (fun r => str_eq (event_type r) "Demo Request") filtered_df) in
  mkManagerKPI total_sales top_product top_product_sales top_salesperson top_salesperson_sales
               demo_requests.

(** Lines 589-599 of the live Sales Manager view. *)
Definition live_manager_kpis (filtered_df purchases_df : DataFrame) : ManagerKPI :=
  let total_sales := col_sum total_price purchases_df in
  let top_products := nlargest 5 (groupby_sum product_name total_price purchases_df) in
  let sales_by_person := groupby_sum salesperson total_price purchases_df in
  let demo_requests := List.length (filter (fun r => str_eq (event_type r) "Demo Request") filtered_df) in
  if negb (is_empty purchases_df) then
    let top_product := if negb (is_empty top_products) then first_key top_products else "N/A" in
    let top_product_sales := if negb (is_empty top_products) then first_value top_products else 0%Q in
    let top_salesperson := if negb (is_empty sales_by_person) then first_key sales_by_person else "N/A" in
    let top_salesperson_sales :=
      if negb (is_empty sales_by_person) then first_value sales_by_person else 0%Q in
    mkManagerKPI total_sales top_product top_product_sales top_salesperson top_salesperson_sales
                 demo_requests
  else
    mkManagerKPI total_sales "N/A" 0%Q "N/A" 0%Q demo_requests.

(** *** Salesperson *)

Record SalespersonKPI : Type := mkSalespersonKPI {
  s_number_of_sales   : nat;
  s_revenue_achieved  : Q;
  s_top_product       : string;
  s_top_product_sales : Q;
  s_conversion_rate   : Q;
  s_gauge_color       : string
}.

Definition Qnat (n : nat) : Q := inject_Z (Z.of_nat n).

(** Lines 214-233 of [generate_pdf]. *)
Definition pdf_salesperson_kpis (filtered_df : DataFrame) (selected_salesperson : option string)
    (start_date end_date : Z) (sales_target : Q) : SalespersonKPI :=
  let person_df := pdf_person_df filtered_df selected_salesperson start_date end_date in
  let purchases_df := pdf_person_purchases filtered_df selected_salesperson start_date end_date in
  let number_of_sales := List.length purchases_df in
  let revenue_achieved := col_sum total_price purchases_df in
  let top_products := nlargest 1 (groupby_sum product_name total_price purchases_df) in
  let top_product := if negb (is_empty top_products) then first_key top_products else "N/A" in
  let top_product_sales := if negb (is_empty top_products) then first_value top_products else 0%Q in
  let total_events := List.length person_df in
  let conversion_rate :=
    if (0 <? total_events)%nat
    then (Qnat number_of_sales / Qnat total_events * 100)%Q else 0%Q in
  let gauge_color :=
    if Qle_bool sales_target revenue_achieved then "green"
    else if Qle_bool (sales_target * (9 # 10)) revenue_achieved then "magenta"
    else "red" in
  mkSalespersonKPI number_of_sales revenue_achieved top_product top_product_sales
                   conversion_rate gauge_color.

(** Lines 455-481 of [salesperson_dashboard]. *)
Definition salesperson_dashboard (df : DataFrame) (selected_salesperson : option string)
    (start_date end_date : Z) (sales_target : Q) : SalespersonKPI :=
  let person_df := live_person_df df selected_salesperson start_date end_date in
  let purchases_df := live_person_purchases df selected_salesperson start_date end_date in
  let number_of_sales := List.length purchases_df in
  let revenue_achieved := col_sum total_price purchases_df in
  let top_products := nlargest 1 (groupby_sum product_name total_price purchases_df) in
  let top_product := if negb (is_empty top_products) then first_key top_products else "N/A" in
  let top_product_sales := if negb (is_empty top_products) then first_value top_products else 0%Q in
  let total_events := List.length person_df in
  let conversion_rate :=
    if (0 <? total_events)%nat
    then (Qnat number_of_sales / Qnat total_events * 100)%Q else 0%Q in
  let gauge_color :=
    if Qle_bool sales_target revenue_achieved then "green"
    else if Qle_bool (sales_target * (9 # 10)) revenue_achieved then "magenta"
    else "red" in
  mkSalespersonKPI number_of_sales revenue_achieved top_product top_product_sales
                   conversion_rate gauge_color.

(** The three-tier colour rule of lines 228-233 and 476-481 on binary64
    values, as Python evaluates it: [>=] is the IEEE comparison (false as
    soon as one side is NaN) and [sales_target * 0.9] is the product, rounded
    to binary64, with the binary64 number nearest to 0.9. *)
Definition gauge_color (revenue_achieved sales_target : float) : string :=
  if PrimFloat.leb sales_target revenue_achieved then "green"
  else if PrimFloat.leb (sales_target * 0.9)%float revenue_achieved then "magenta"
  else "red".

(** The same rule in exact arithmetic, as the KPI blocks above apply it to
    their rational amounts. *)
Definition gauge_color_exact (revenue_achieved sales_target : Q) : string :=
  if Qle_bool sales_target revenue_achieved then "green"
  else if Qle_bool (sales_target * (9 # 10)) revenue_achieved then "magenta"
  else "red".

(** Lines 225-226 and 472-473 on their own: the rate computed from the two
    frame lengths. *)
Definition conversion_rate (number_of_sales total_events : nat) : Q :=
  if (0 <? total_events)%nat
  then (Qnat number_of_sales / Qnat total_events * 100)%Q else 0%Q.

(** *** Sales Marketer *)

Inductive hour_label : Type :=
| Hour (h : Z)
| NotAvailable.   (* the string "N/A" *)

Record MarketerKPI : Type := mkMarketerKPI {
  k_total_visits       : nat;
  k_avg_session_length : option Q;
  k_most_active_hour   : hour_label;
  k_total_log_requests : nat
}.

(** Line 317 / 688. *)
Definition avg_session_length (filtered_df : DataFrame) : option Q :=
  if negb (is_empty filtered_df)
  then series_mean (map snd (groupby_mean session_id response_time_ms filtered_df))
  else Some 0%Q.

(** Lines 319-320 / 690-691: the guard looks at the length of the [hour]
    column, then the first mode is taken. *)
Definition most_active_hour (filtered_df : DataFrame) : result hour_label :=
  let hour := map (fun r => hour_of (timestamp r)) filtered_df in
  if negb (is_empty hour)
  then match iloc0 (mode hour) with
       | Ok h => Ok (Hour h)
       | Raise e => Raise e
       end
  else Ok NotAvailable.

(** Lines 316-331 of [generate_pdf]. *)
Definition pdf_marketer_kpis (filtered_df : DataFrame) : result MarketerKPI :=
  let total_visits := n_unique session_id filtered_df in
  let avg := if negb (is_empty filtered_df)
             then series_mean (map snd (groupby_mean session_id response_time_ms filtered_df))
             else Some 0%Q in
  let hour := map (fun r => hour_of (timestamp r)) filtered_df in
  match (if negb (is_empty hour)
         then match iloc0 (mode hour) with Ok h => Ok (Hour h) | Raise e => Raise e end
         else Ok NotAvailable) with
  | Ok most_active => Ok (mkMarketerKPI total_visits avg most_active (List.length filtered_df))
  | Raise e => Raise e
  end.

(** Lines 687-702 of the live Sales Marketer view. *)
Definition live_marketer_kpis (filtered_df : DataFrame) : result MarketerKPI :=
  let total_visits := n_unique session_id filtered_df in
  let avg := if negb (is_empty filtered_df)
             then series_mean (map snd (groupby_mean session_id response_time_ms filtered_df))
             else Some 0%Q in
  let hour := map (fun r => hour_of (timestamp r)) filtered_df in
  match (if negb (is_empty hour)
         then match iloc0 (mode hour) with Ok h => Ok (Hour h) | Raise e => Raise e end
         else Ok NotAvailable) with
  | Ok most_active => Ok (mkMarketerKPI total_visits avg most_active (List.length filtered_df))
  | Raise e => Raise e
  end.

(** Lines 334 / 712: the revenue per country of the Marketer's map. *)
Definition geo_df (purchases_df : DataFrame) : list (string * Q) :=
  groupby_sum country total_price purchases_df.

(** *** The KPI block of a role, on both surfaces *)

Inductive Role : Type := SalesManager | Salesperson | SalesMarketer.

Inductive KPIs : Type :=
| ManagerKPIs (k : ManagerKPI)
| SalespersonKPIs (k : SalespersonKPI)
| MarketerKPIs (k : MarketerKPI).

Record Targets : Type := mkTargets {
  selected_salesperson : option string;
  sales_target         : Q;
  start_date           : Z;
  end_date             : Z
}.

(** The KPI block written by [generate_pdf] (lines 150-170, 213-245,
    315-332). *)
Definition generate_pdf_kpis (role : Role) (filtered_df purchases_df : DataFrame)
    (t : Targets) : result KPIs :=
  match role with
  | SalesManager => Ok (ManagerKPIs (pdf_manager_kpis filtered_df purchases_df))
  | Salesperson =>
      Ok (SalespersonKPIs (pdf_salesperson_kpis filtered_df (selected_salesperson t)
                             (start_date t) (end_date t) (sales_target t)))
  | SalesMarketer =>
      match pdf_marketer_kpis filtered_df with
      | Ok k => Ok (MarketerKPIs k)
      | Raise e => Raise e
      end
  end.

(** The KPI block of the role dispatch at lines 585-702. *)
Definition dashboard_kpis (role : Role) (filtered_df purchases_df : DataFrame)
    (t : Targets) : result KPIs :=
  match role with
  | SalesManager => Ok (ManagerKPIs (live_manager_kpis filtered_df purchases_df))
  | Salesperson =>
      Ok (SalespersonKPIs (salesperson_dashboard filtered_df (selected_salesperson t)
                             (start_date t) (end_date t) (sales_target t)))
  | SalesMarketer =>
      match live_marketer_kpis filtered_df with
      | Ok k => Ok (MarketerKPIs k)
      | Raise e => Raise e
      end
  end.

(** ** Age groups of the Marketer's "Product Sales by Age" (lines 343-347, 723-727) *)

(** [bins.searchsorted(x, side='left')] on ascending [bins]: the number of
    edges strictly below [x]. *)
Definition searchsorted_left (bins : list Q) (x : Q) : nat :=
  List.length (filter (fun b => Qltb b x) bins).

(** [pd.cut(x, bins, labels=labels, include_lowest=include_lowest)] with the
    default [right=True], on one cell. *)
Definition pd_cut (x : option Q) (bins : list Q) (labels : list string)
    (include_lowest : bool) : option string :=
  match x with
  | None => None
  | Some v =>
      let ids := searchsorted_left bins v in
      let ids := if include_lowest && Qeq_bool v (hd 0%Q bins) then 1%nat else ids in
      if Nat.eqb ids 0 || Nat.eqb ids (List.length bins) then None
      else nth_error labels (ids - 1)
  end.

Definition age_bins : list Q := [0; 20; 30; 40; 50; 100]%Q.
Definition age_labels : list string := ["0-20"; "21-30"; "31-40"; "41-50"; "51+"].

Definition age_group (r : Row) : option string :=
  pd_cut (customer_age r) age_bins age_labels true.

(** One cell of [groupby(['age_group', 'product_name'])['total_price'].sum()]. *)
Definition sales_by_age_product (purchases_df : DataFrame) (label product : string) : Q :=
  col_sum total_price
    (filter (fun r => match age_group r with
                      | Some l => String.eqb l label
                      | None => false
                      end && str_eq (product_name r) product) purchases_df).

(** ** Dataset loader (lines 19-44) *)

Record CsvTable : Type := mkCsv {
  columns : list string;
  rows    : DataFrame
}.

Definition required_columns : list string :=
  ["sale_date"; "country"; "salesperson"; "total_price"; "category";
   "product_name"; "sales_channel"; "customer_age"; "customer_gender";
   "event_type"; "status_code"; "customer_id"; "customer_type"; "occupation";
   "session_id"; "response_time_ms"; "url_requested"].

Definition has_column (cols : list string) (col : string) : bool :=
  existsb (String.eqb col) cols.

(** [pd.read_csv(path, parse_dates=parse_dates, dayfirst=True)]: the file may
    be absent, and pandas rejects a [parse_dates] column that the header
    does not have, naming those columns only. *)
Definition read_csv (file : option CsvTable) (parse_dates : list string) : result CsvTable :=
  match file with
  | None => Raise FileNotFoundError
  | Some t =>
      let missing_cols := filter (fun c => negb (has_column (columns t) c)) parse_dates in
      if is_empty missing_cols then Ok t
      else Raise (ValueError ("Missing column provided to 'parse_dates': '"
                              ++ String.concat ", " (sort_by String.leb missing_cols) ++ "'"))
  end.

(** [str(e)]. *)
Definition exn_str (e : exn) : string :=
  match e with
  | IndexError => "single positional indexer is out-of-bounds"
  | ValueError msg => msg
  | FileNotFoundError => "No such file or directory: 'sales_data.csv'"
  | OSError => "cannot identify image file"
  end.

(** [load_data] either returns the frame (with the warnings shown) or shows
    one error and stops the script ([st.error] followed by [st.stop()]). *)
Inductive load_outcome : Type :=
| Loaded (df : CsvTable) (warnings : list string)
| Stopped (error : string).

Definition duplicated_any (col : Row -> option string) (df : DataFrame) : bool :=
  negb (Nat.eqb (n_unique col df) (List.length df)).

Definition load_data (file : option CsvTable) : load_outcome :=
  match read_csv file ["sale_date"; "timestamp"] with
  | Ok df =>
      let missing_columns :=
        filter (fun col => negb (has_column (columns df) col)) required_columns in
      if negb (is_empty missing_columns)
      then Stopped ("Missing required columns: " ++ String.concat ", " missing_columns)
      else if existsb (fun r => num_lt (total_price r) 0%Q) (rows df)
      then Stopped "Negative values found in 'total_price'."
      else if existsb (fun r => num_lt (customer_age r) 0%Q) (rows df)
              || existsb (fun r => num_gt (customer_age r) 120%Q) (rows df)
      then Stopped "Invalid 'customer_age' values detected."
      else Loaded df
             (if duplicated_any session_id (rows df)
              then ["Duplicate session IDs detected. Consider cleaning the dataset."]
              else [])
  | Raise FileNotFoundError => Stopped "sales_data.csv not found. Please upload the file."
  | Raise e => Stopped ("Error loading data: " ++ exn_str e)
  end.

(** [occurs s t]: [s] is a substring of [t] (a message "lists" a column when
    the column's name occurs in it). *)
Fixpoint occurs (s t : string) : bool :=
  String.prefix s t ||
  match t with
  | EmptyString => false
  | String _ t' => occurs s t'
  end.

(** ** Temporary chart files of the export (lines 179-181 and 398-415) *)

Module PdfExport.

(** The temporary directory: the chart files that exist, and the next
    unused file name. *)
Record World : Type := mkWorld {
  tmp_files : list nat;
  next_tmp  : nat
}.

(** A computation that reads and changes the world and may raise. *)
Definition IO (A : Type) : Type := World -> result A * World.

Definition ret {A : Type} (a : A) : IO A := fun w => (Ok a, w).

Definition bind {A B : Type} (c : IO A) (k : A -> IO B) : IO B :=
  fun w => match c w with
           | (Ok a, w') => k a w'
           | (Raise e, w') => (Raise e, w')
           end.

Definition raise {A : Type} (e : exn) : IO A := fun w => (Raise e, w).

Notation "x <- c ;; k" := (bind c (fun x => k))
  (at level 61, c at next level, right associativity).
Notation "c ;;; k" := (bind c (fun _ => k))
  (at level 61, right associativity).

(** [tempfile.NamedTemporaryFile(delete=False, suffix=".png")]: a new file
    that closing does not remove. *)
Definition NamedTemporaryFile : IO nat :=
  fun w => (Ok (next_tmp w), mkWorld (next_tmp w :: tmp_files w) (S (next_tmp w))).

(** [os.unlink(path)]. *)
Definition unlink (path : nat) : IO unit :=
  fun w => if existsb (Nat.eqb path) (tmp_files w)
           then (Ok tt, mkWorld (remove Nat.eq_dec path (tmp_files w)) (next_tmp w))
           else (Raise FileNotFoundError, w).

(** One chart of the report: its title, whether the charting layer
    manages to render it ([pio.write_image]) and whether the PDF layer
    manages to read and draw it ([ImageReader], [drawImage]). *)
Record Chart : Type := mkChart {
  chart_title : string;
  renders     : bool;
  embeds      : bool
}.

Definition write_image (fig : Chart) (path : nat) : IO unit :=
  if renders fig then ret tt else raise (ValueError "write_image").

Definition drawImage (fig : Chart) (path : nat) : IO unit :=
  if embeds fig then ret tt else raise OSError.

(** The [with tempfile.NamedTemporaryFile(delete=False) as tmpfile] blocks:
    every figure gets a file, is rendered into it and is appended to
    [charts]. *)
Fixpoint build_charts (figs : list Chart) (charts : list (nat * Chart))
  : IO (list (nat * Chart)) :=
  match figs with
  | [] => ret charts
  | fig :: figs' =>
      tmpfile <- NamedTemporaryFile ;;
      write_image fig tmpfile ;;;
      build_charts figs' (charts ++ [(tmpfile, fig)])
  end.

(** The loop of lines 398-415: draw the title, read and draw the image,
    then unlink the file. *)
Fixpoint embed_charts (charts : list (nat * Chart)) : IO unit :=
  match charts with
  | [] => ret tt
  | (chart_path, fig) :: charts' =>
      drawImage fig chart_path ;;;
      unlink chart_path ;;;
      embed_charts charts'
  end.

Definition generate_pdf (figs : list Chart) : IO unit :=
  charts <- build_charts figs [] ;;
  embed_charts charts.

End PdfExport.

(** ** Reference definitions, following the specification's wording *)

(** "The salesperson with the greatest summed purchase revenue, together
    with that summed revenue". *)
Definition greatest_revenue_salesperson (purchases_df : DataFrame) (name : string)
    (revenue : Q) : Prop :=
  In (name, revenue) (groupby_sum salesperson total_price purchases_df) /\
  forall n v, In (n, v) (groupby_sum salesperson total_price purchases_df) -> (v <= revenue)%Q.

(** "The unweighted mean over distinct sessions of each session's mean
    response time": sessions in order of first appearance, plain averages. *)
Definition average (l : list Q) : option Q :=
  match l with
  | [] => None
  | _ => Some (Qsum l / Qnat (List.length l))%Q
  end.

Definition distinct_sessions (df : DataFrame) : list string :=
  nodup string_dec (omit (map session_id df)).

Definition session_mean (df : DataFrame) (s : string) : option Q :=
  average (omit (map response_time_ms (filter (fun r => str_eq (session_id r) s) df))).

Definition mean_of_session_means (df : DataFrame) : option Q :=
  average (omit (map (session_mean df) (distinct_sessions df))).

(** "A single weighted mean over all rows". *)
Definition mean_over_rows (df : DataFrame) : option Q :=
  average (omit (map response_time_ms df)).

(** Two possibly missing numbers denote the same value. *)
Definition same_number (a b : option Q) : Prop :=
  match a, b with
  | Some x, Some y => (x == y)%Q
  | None, None => True
  | _, _ => False
  end.

(** The age buckets as the specification words them: edges 0/20/30/40/50/100,
    every bucket containing its lower edge. *)
Definition lower_inclusive_bucket (age : Q) : option string :=
  if Qle_bool 0 age && Qltb age 20 then Some "0-20"
  else if Qle_bool 20 age && Qltb age 30 then Some "21-30"
  else if Qle_bool 30 age && Qltb age 40 then Some "31-40"
  else if Qle_bool 40 age && Qltb age 50 then Some "41-50"
  else if Qle_bool 50 age then Some "51+"
  else None.

(** The buckets as the bin edges cut them: bucket [i] runs from edge [i]
    (excluded, except the edge 0 of the first bucket) to edge [i + 1]
    (included). *)
Definition in_bucket (i : nat) (age : Q) : Prop :=
  exists lo hi, nth_error age_bins i = Some lo /\ nth_error age_bins (S i) = Some hi /\
                ((lo < age)%Q \/ (i = 0%nat /\ (age == lo)%Q)) /\ (age <= hi)%Q.

(** ** Sample rows *)

Definition event (sp product ev : string) (price : Q) (status : Z) : Row :=
  mkRow (Some 0) (Some 0) (Some "Botswana") (Some sp) (Some price) (Some "Software")
        (Some product) (Some "Online") (Some 35%Q) (Some "F") (Some ev) (Some status)
        (Some "C1") (Some "Business") (Some "Engineer") (Some "s1") (Some 100%Q)
        (Some "/index.html").

Definition purchase (sp product : string) (price : Q) : Row :=
  event sp product "Purchase" price 200.

(** A log line of a session, with its response time and its time stamp. *)
Definition visit (session : string) (rt : Q) (ts : option Z) : Row :=
  mkRow (Some 0) ts (Some "Botswana") (Some "Alice") (Some 0%Q) (Some "Software")
        (Some "ProductA") (Some "Online") (Some 35%Q) (Some "F") (Some "Page View") (Some 200)
        (Some "C1") (Some "Business") (Some "Engineer") (Some session) (Some rt)
        (Some "/index.html").

Definition aged (age : Q) : Row :=
  mkRow (Some 0) (Some 0) (Some "Botswana") (Some "Alice") (Some 10%Q) (Some "Software")
        (Some "ProductA") (Some "Online") (Some age) (Some "F") (Some "Purchase") (Some 200)
        (Some "C1") (Some "Business") (Some "Engineer") (Some "s1") (Some 100%Q)
        (Some "/index.html").

(** A matcher that finds nothing, and the criteria that keep every row of
    day 0. *)
Definition no_keyword_match (pat : string) (cell : option string) : bool := false.


Definition all_columns : list string := "timestamp" :: required_columns.

Definition without (cols : list string) (drop : list string) : list string :=
  filter (fun c => negb (has_column drop c)) cols.


(** ** Further parts of the script *)

(** *** Date bounds and select boxes of the sidebar (lines 48-80, 96-97) *)

(** [timestamp.date()], as a day number, and [pd.to_datetime(date)], the
    midnight that starts the day. *)
Definition date_of (t : Z) : Z := t / 86400.
Definition to_datetime (day : Z) : Z := day * 86400.

(** The day numbers of [datetime(2024, 1, 1)] and [datetime(2024, 12, 31)]. *)
Definition default_min_date : Z := 19723.
Definition default_max_date : Z := 20088.

(** Lines 50-57: [(min_date, max_date)]; [min()] and [max()] skip the
    missing dates, [today] is [datetime.now().date()]. *)
Definition date_bounds (df : DataFrame) (today : Z) : Z * Z :=
  match omit (map sale_date df) with
  | [] => (default_min_date, default_max_date)
  | t :: ts =>
      (date_of (fold_right Z.min t ts),
       Z.min (date_of (fold_right Z.max t ts)) today)
  end.

(** Lines 67, 70, 73, 79: ['All'] + sorted(df[col].dropna().unique().tolist()). *)
Definition select_options (col : Row -> option string) (df : DataFrame) : list string :=
  "All" :: sort_by String.leb (nodup string_dec (omit (map col df))).

(** *** The gauge of the Salesperson views (lines 248-266, 492-509) *)




(** How good a gauge colour is. *)
Definition colour_rank (colour : string) : nat :=
  if String.eqb colour "green" then 2
  else if String.eqb colour "magenta" then 1
  else 0.

(** *** The time stamp column before its conversion (lines 319-320, 690-691) *)

(** A cell of the [timestamp] column as [read_csv] leaves it: a time stamp,
    a missing value or, when the column could not be parsed as dates, a text
    that is no date. *)
Inductive time_cell : Type :=
| Stamp (t : Z)
| NoStamp
| BadStamp (text : string).

(** [pd.to_datetime(col)] with its default [errors='raise']: the first text
    that is no date raises a ValueError (the wording of the message is
    pandas'). *)
Fixpoint pd_to_datetime (col : list time_cell) : result (list (option Z)) :=
  match col with
  | [] => Ok []
  | BadStamp text :: _ =>
      Raise (ValueError ("Unknown datetime string format, unable to parse: " ++ text))
  | Stamp t :: col' =>
      match pd_to_datetime col' with
      | Ok ts => Ok (Some t :: ts)
      | Raise e => Raise e
      end
  | NoStamp :: col' =>
      match pd_to_datetime col' with
      | Ok ts => Ok (None :: ts)
      | Raise e => Raise e
      end
  end.

(** Lines 319-320 / 690-691 with the conversion:
    [hour = pd.to_datetime(timestamp).dt.hour], then the guarded first
    mode. *)
Definition most_active_hour_of_column (timestamp_col : list time_cell) : result hour_label :=
  match pd_to_datetime timestamp_col with
  | Raise e => Raise e
  | Ok ts =>
      let hour := map hour_of ts in
      if negb (is_empty hour)
      then match iloc0 (mode hour) with
           | Ok h => Ok (Hour h)
           | Raise e => Raise e
           end
      else Ok NotAvailable
  end.

(** The cell of a column that was parsed. *)
Definition time_cell_of (ts : option Z) : time_cell :=
  match ts with
  | Some t => Stamp t
  | None => NoStamp
  end.

(** *** The file as [pd.read_csv] finds it (lines 19-44) *)

(** The file may be absent; the parser may fail on it for another reason (a
    malformed, empty or undecodable file), with pandas' message; or it gives
    a table, whose [total_price] and [customer_age] columns may have come
    out non-numeric (text in some cell). *)
Inductive csv_file : Type :=
| Absent
| Malformed (error : string)
| Table (t : CsvTable) (total_price_numeric customer_age_numeric : bool).

(** [str(e)] of the TypeError that comparing a text column with a number
    raises. *)
Definition not_comparable : string :=
  "'<' not supported between instances of 'str' and 'int'".

(** [load_data] on any file: besides the paths of [load_data] above, every
    other exception raised inside the [try] block is caught by
    [except Exception], shown and followed by [st.stop()]. *)
Definition load_data_file (file : csv_file) : load_outcome :=
  match file with
  | Absent => Stopped "sales_data.csv not found. Please upload the file."
  | Malformed error => Stopped ("Error loading data: " ++ error)
  | Table t total_price_numeric customer_age_numeric =>
      match read_csv (Some t) ["sale_date"; "timestamp"] with
      | Ok df =>
          let missing_columns :=
            filter (fun col => negb (has_column (columns df) col)) required_columns in
          if negb (is_empty missing_columns)
          then Stopped ("Missing required columns: " ++ String.concat ", " missing_columns)
          else if negb total_price_numeric
          then Stopped ("Error loading data: " ++ not_comparable)
          else if existsb (fun r => num_lt (total_price r) 0%Q) (rows df)
          then Stopped "Negative values found in 'total_price'."
          else if negb customer_age_numeric
          then Stopped ("Error loading data: " ++ not_comparable)
          else if existsb (fun r => num_lt (customer_age r) 0%Q) (rows df)
                  || existsb (fun r => num_gt (customer_age r) 120%Q) (rows df)
          then Stopped "Invalid 'customer_age' values detected."
          else Loaded df
                 (if duplicated_any session_id (rows df)
                  then ["Duplicate session IDs detected. Consider cleaning the dataset."]
                  else [])
      | Raise FileNotFoundError => Stopped "sales_data.csv not found. Please upload the file."
      | Raise e => Stopped ("Error loading data: " ++ exn_str e)
      end
  end.

(** *** Page layout of the charts (lines 398-414) *)

Module Layout.

(** [letter] is 612 x 792 points. *)
Definition height : Q := 792.

(** Where one chart ends up: the page and base line of its title, the page
    of its image and the image's lower and upper edge. *)
Record Placed : Type := mkPlaced {
  title_page   : nat;
  title_y      : Q;
  image_page   : nat;
  image_bottom : Q;
  image_top    : Q
}.

(** An image of [img_width] x [img_height] pixels is drawn 500 points wide. *)
Definition target_height (size : positive * positive) : Q :=
  let (img_width, img_height) := size in
  let aspect := (Zpos img_height # img_width) in
  (500 * aspect)%Q.

(** The loop body on the cursor [(page, y)], for the sizes of the chart
    images in report order. *)
Fixpoint place_charts (sizes : list (positive * positive)) (page : nat) (y : Q)
  : list Placed :=
  match sizes with
  | [] => []
  | size :: sizes' =>
      let '(page, y) := if Qltb y 150 then (S page, height - 50)%Q else (page, y) in
      let title_page := page in
      let title_y := y in
      let y := (y - 20)%Q in
      let target_height := target_height size in
      let '(page, y) :=
        if Qltb (y - target_height) 50 then (S page, height - 50)%Q else (page, y) in
      mkPlaced title_page title_y page (y - target_height)%Q y
      :: place_charts sizes' page (y - (target_height + 20))%Q
  end.

End Layout.

(** ** Reference definitions for the further parts *)

(** The single mask that [filter_data] amounts to: every active criterion
    holds of the row. *)
Definition row_matches (m : string -> option string -> bool)
    (country_ category_ sales_channel_ keyword : string) (salesperson_ : option string)
    (start_date end_date : Z) (r : Row) : bool :=
  (String.eqb country_ "All" || str_eq (country r) country_)
  && (String.eqb category_ "All" || str_eq (category r) category_)
  && (String.eqb sales_channel_ "All" || str_eq (sales_channel r) sales_channel_)
  && (String.eqb keyword "" || m keyword (product_name r) || m keyword (url_requested r))
  && match salesperson_selected salesperson_ with
     | Some s => str_eq (salesperson r) s
     | None => true
     end
  && in_date_range start_date end_date r.

Definition has_value {A : Type} (c : option A) : bool :=
  match c with Some _ => true | None => false end.

(** What a table has to satisfy to be loaded. *)
Definition loadable (t : CsvTable) : Prop :=
  has_column (columns t) "timestamp" = true /\
  (forall col, In col required_columns -> has_column (columns t) col = true) /\
  (forall r p, In r (rows t) -> total_price r = Some p -> (0 <= p)%Q) /\
  (forall r a, In r (rows t) -> customer_age r = Some a -> (0 <= a)%Q /\ (a <= 120)%Q).

(** * Properties *)

(** ** Generic facts about filters *)

Lemma filter_all_true {A : Type} (f : A -> bool) (l : list A) :
  (forall x, In x l -> f x = true) -> filter f l = l.
Proof.
  induction l as [|a l IH]; intros H; simpl; [reflexivity|].
  rewrite (H a (or_introl eq_refl)). f_equal. apply IH.
  intros x Hx. apply H. now right.
Qed.

Lemma filter_all_false {A : Type} (f : A -> bool) (l : list A) :
  (forall x, In x l -> f x = false) -> filter f l = [].
Proof.
  induction l as [|a l IH]; intros H; simpl; [reflexivity|].
  rewrite (H a (or_introl eq_refl)). apply IH.
  intros x Hx. apply H. now right.
Qed.

Lemma filter_idempotent {A : Type} (f : A -> bool) (l : list A) :
  filter f (filter f l) = filter f l.
Proof.
  apply filter_all_true. intros x Hx. apply filter_In in Hx. tauto.
Qed.

Lemma filter_data_incl (m : string -> option string -> bool) (df : DataFrame)
    (co ca ch kw : string) (sp : option string) (s e : Z) :
  incl (filter_data m df co ca ch kw sp s e) df.
Proof.
  unfold filter_data. intros r Hr.
  apply filter_In in Hr. destruct Hr as [Hr _].
  destruct (salesperson_selected sp); [apply filter_In in Hr; destruct Hr as [Hr _]|];
  (destruct (negb (kw =? "")%string); [apply filter_In in Hr; destruct Hr as [Hr _]|]);
  (destruct (negb (ch =? "All")%string); [apply filter_In in Hr; destruct Hr as [Hr _]|]);
  (destruct (negb (ca =? "All")%string); [apply filter_In in Hr; destruct Hr as [Hr _]|]);
  (destruct (negb (co =? "All")%string); [apply filter_In in Hr; destruct Hr as [Hr _]|]);
  exact Hr.
Qed.

(** Every row that [filter_data] keeps is in the date range and belongs to
    the selected salesperson, if one is selected. *)
Lemma filter_data_rows (m : string -> option string -> bool) (df : DataFrame)
    (co ca ch kw : string) (sp : option string) (s e : Z) (r : Row) :
  In r (filter_data m df co ca ch kw sp s e) ->
  in_date_range s e r = true /\
  match salesperson_selected sp with
  | Some n => str_eq (salesperson r) n = true
  | None => True
  end.
Proof.
  unfold filter_data. intros Hr.
  apply filter_In in Hr. destruct Hr as [Hr Hd]. split; [exact Hd|].
  destruct (salesperson_selected sp); [|exact I].
  apply filter_In in Hr. tauto.
Qed.

(** On a frame that [filter_data] produced, the salesperson paths rebuild
    the same frame: their two extra masks keep every row. *)
Lemma person_df_is_working_subset (m : string -> option string -> bool) (df : DataFrame)
    (c : FilterCriteria) :
  pdf_person_df (working_subset m df c) (f_salesperson c) (f_start_date c) (f_end_date c)
  = working_subset m df c /\
  live_person_df (working_subset m df c) (f_salesperson c) (f_start_date c) (f_end_date c)
  = working_subset m df c.
Proof.
  assert (H : forall r, In r (working_subset m df c) ->
     in_date_range (f_start_date c) (f_end_date c) r = true /\
     match salesperson_selected (f_salesperson c) with
     | Some n => str_eq (salesperson r) n = true
     | None => True
     end) by (intros r; apply filter_data_rows).
  unfold pdf_person_df, live_person_df.
  destruct (salesperson_selected (f_salesperson c)) as [n|].
  - rewrite (filter_all_true (fun r => str_eq (salesperson r) n))
      by (intros x Hx; apply (H x Hx)).
    rewrite filter_all_true by (intros x Hx; apply (H x Hx)). split; reflexivity.
  - rewrite filter_all_true by (intros x Hx; apply (H x Hx)). split; reflexivity.
Qed.

Lemma successful_sale_fields (r : Row) :
  successful_sale r = true <->
  exists p, total_price r = Some p /\ (0 < p)%Q /\
            event_type r = Some "Purchase" /\ status_code r = Some 200.
Proof.
  unfold successful_sale, num_gt, str_eq, int_eq, Qltb.
  destruct (total_price r) as [p|], (event_type r) as [ev|], (status_code r) as [st|];
    simpl; split; intros H;
    try discriminate; try (destruct H as (p' & H1 & _); discriminate);
    try (destruct H as (p' & _ & _ & H3 & _); discriminate);
    try (destruct H as (p' & _ & _ & _ & H4); discriminate);
    try (rewrite ?andb_false_r in H; discriminate).
  - apply andb_prop in H. destruct H as [H H3]. apply andb_prop in H. destruct H as [H1 H2].
    exists p. repeat split.
    + apply negb_true_iff in H1. apply Qnot_le_lt. intros Hle.
      apply Qle_bool_iff in Hle. congruence.
    + apply String.eqb_eq in H2. now subst.
    + apply Z.eqb_eq in H3. now subst.
  - destruct H as (p' & H1 & Hp & H2 & H3).
    injection H1 as <-. injection H2 as ->. injection H3 as ->.
    rewrite String.eqb_refl, Z.eqb_refl, !andb_true_r.
    apply negb_true_iff. destruct (Qle_bool p 0) eqn:E; [|reflexivity].
    apply Qle_bool_iff in E. exfalso. apply (Qlt_not_le _ _ Hp E).
Qed.

(** ** C1 *)

(** C1. For every loaded table and every filter criteria, the purchase
    subset consists of exactly the rows of the working subset with
    [total_price > 0], [event_type = 'Purchase'] and [status_code = 200], so
    it is included in the working subset; the frame of purchases that the
    salesperson paths of the PDF export and of the live view rebuild with
    the same mask is this same purchase subset, and the revenue of each
    role (the salesperson's revenue achieved, the manager's total, the
    marketer's revenue per country) is summed over it. *)
Theorem C1_purchase_subset (m : string -> option string -> bool) (df : DataFrame)
    (c : FilterCriteria) :
  let working := working_subset m df c in
  let purchases := purchases_of working in
  (forall r, In r purchases <->
             In r working /\
             exists p, total_price r = Some p /\ (0 < p)%Q /\
                       event_type r = Some "Purchase" /\ status_code r = Some 200) /\
  purchases = filter successful_sale working /\
  incl purchases working /\
  incl working df /\
  pdf_person_purchases working (f_salesperson c) (f_start_date c) (f_end_date c) = purchases /\
  live_person_purchases working (f_salesperson c) (f_start_date c) (f_end_date c) = purchases /\
  (forall target,
     s_revenue_achieved (pdf_salesperson_kpis working (f_salesperson c) (f_start_date c)
                           (f_end_date c) target) = col_sum total_price purchases /\
     s_revenue_achieved (salesperson_dashboard working (f_salesperson c) (f_start_date c)
                           (f_end_date c) target) = col_sum total_price purchases) /\
  m_total_sales (pdf_manager_kpis working purchases) = col_sum total_price purchases /\
  m_total_sales (live_manager_kpis working purchases) = col_sum total_price purchases /\
  (forall k v, In (k, v) (geo_df purchases) ->
     v = col_sum total_price
           (filter (fun r => str_eq (country r) k) (filter successful_sale working))).
Proof.
  intros working purchases. subst working purchases.
  destruct (person_df_is_working_subset m df c) as [Hp Hl].
  assert (Hpp : pdf_person_purchases (working_subset m df c) (f_salesperson c)
                  (f_start_date c) (f_end_date c) = purchases_of (working_subset m df c))
    by (unfold pdf_person_purchases; rewrite Hp; reflexivity).
  assert (Hlp : live_person_purchases (working_subset m df c) (f_salesperson c)
                  (f_start_date c) (f_end_date c) = purchases_of (working_subset m df c))
    by (unfold live_person_purchases; rewrite Hl; reflexivity).
  split; [|split; [|split; [|split; [|split; [|split; [|split; [|split; [|split]]]]]]]];
    [| | | | | |
     intros target; unfold pdf_salesperson_kpis, salesperson_dashboard;
     cbn [s_revenue_achieved]; rewrite Hpp, Hlp; split; reflexivity
     | destruct (purchases_of (working_subset m df c)); reflexivity
     | destruct (purchases_of (working_subset m df c)); reflexivity
     | intros k v Hkv; unfold geo_df, groupby_sum, groupby in Hkv;
       rewrite map_map in Hkv; apply in_map_iff in Hkv;
       destruct Hkv as (k' & E & _); cbn [fst snd] in E;
       injection E as <- <-; reflexivity ].
  - intros r. unfold purchases_of. rewrite filter_In, successful_sale_fields. tauto.
  - reflexivity.
  - intros r Hr. apply filter_In in Hr. tauto.
  - apply filter_data_incl.
  - unfold pdf_person_purchases. rewrite Hp. reflexivity.
  - unfold live_person_purchases. rewrite Hl. reflexivity.
Qed.

(** ** C2 *)

Lemma manager_kpis_agree (filtered_df purchases_df : DataFrame) :
  pdf_manager_kpis filtered_df purchases_df = live_manager_kpis filtered_df purchases_df.
Proof.
  destruct purchases_df as [|r l]; reflexivity.
Qed.

Lemma salesperson_kpis_agree (filtered_df : DataFrame) (sp : option string) (s e : Z) (t : Q) :
  pdf_salesperson_kpis filtered_df sp s e t = salesperson_dashboard filtered_df sp s e t.
Proof. reflexivity. Qed.

Lemma marketer_kpis_agree (filtered_df : DataFrame) :
  pdf_marketer_kpis filtered_df = live_marketer_kpis filtered_df.
Proof. reflexivity. Qed.

(** C2. For every role and every pair of working and purchase subsets, the
    KPI block written into the PDF report (revenue totals, top product and
    salesperson with their amounts, counts, rates, hours) is equal to the
    KPI block of the live dashboard, including the case where computing it
    raises. *)
Theorem C2_pdf_equals_live (role : Role) (filtered_df purchases_df : DataFrame) (t : Targets) :
  generate_pdf_kpis role filtered_df purchases_df t
  = dashboard_kpis role filtered_df purchases_df t.
Proof.
  destruct role; simpl.
  - now rewrite manager_kpis_agree.
  - now rewrite salesperson_kpis_agree.
  - now rewrite marketer_kpis_agree.
Qed.

(** ** C3 *)

(** What the code reports in general: the first group of
    [groupby('salesperson')], that is the salesperson whose name sorts
    first, with that person's summed revenue. *)
Lemma top_salesperson_is_first_group (filtered_df purchases_df : DataFrame) :
  m_top_salesperson (pdf_manager_kpis filtered_df purchases_df)
  = first_key (groupby_sum salesperson total_price purchases_df) /\
  m_top_salesperson_sales (pdf_manager_kpis filtered_df purchases_df)
  = first_value (groupby_sum salesperson total_price purchases_df).
Proof.
  unfold pdf_manager_kpis; simpl.
  destruct (groupby_sum salesperson total_price purchases_df) as [|[k v] s]; split; reflexivity.
Qed.

(** C3. On the purchase subset [(Alice, 10), (Bob, 100)] the manager's
    "Top Salesperson" KPI, in the PDF and in the live view, is Alice with
    10, while the salesperson with the greatest summed revenue is Bob with
    100: the per-salesperson sums are taken in name order and never ordered
    by revenue, unlike the per-product sums, whose first entry is the
    largest. *)
Theorem C3_top_salesperson_not_greatest :
  let purchases_df := [purchase "Alice" "ProductA" 10; purchase "Bob" "ProductB" 100] in
  m_top_salesperson (pdf_manager_kpis purchases_df purchases_df) = "Alice" /\
  m_top_salesperson_sales (pdf_manager_kpis purchases_df purchases_df) = 10%Q /\
  m_top_salesperson (live_manager_kpis purchases_df purchases_df) = "Alice" /\
  m_top_salesperson_sales (live_manager_kpis purchases_df purchases_df) = 10%Q /\
  greatest_revenue_salesperson purchases_df "Bob" 100 /\
  ~ greatest_revenue_salesperson purchases_df "Alice" 10 /\
  m_top_product (live_manager_kpis purchases_df purchases_df) = "ProductB" /\
  m_top_product_sales (live_manager_kpis purchases_df purchases_df) = 100%Q.
Proof.
  cbv zeta.
  assert (G : groupby_sum salesperson total_price
                [purchase "Alice" "ProductA" 10; purchase "Bob" "ProductB" 100]
              = [("Alice", 10%Q); ("Bob", 100%Q)]) by (vm_compute; reflexivity).
  repeat match goal with |- _ /\ _ => split end;
    try (vm_compute; reflexivity).
  - unfold greatest_revenue_salesperson. rewrite G. split.
    + right; left; reflexivity.
    + intros n v [H|[H|[]]]; inversion H; subst; discriminate.
  - unfold greatest_revenue_salesperson. rewrite G. intros [_ H].
    specialize (H "Bob" 100%Q (or_intror (or_introl eq_refl))).
    apply Qle_bool_iff in H. vm_compute in H. discriminate.
Qed.

(** ** C4 *)

Lemma Qle_bool_false (x y : Q) : Qle_bool x y = false <-> (y < x)%Q.
Proof.
  split; intros H.
  - apply Qnot_le_lt. intros Hle. apply Qle_bool_iff in Hle. congruence.
  - destruct (Qle_bool x y) eqn:E; [|reflexivity].
    apply Qle_bool_iff in E. exfalso. apply (Qlt_not_le _ _ H E).
Qed.

Lemma gauge_color_in_kpis (df : DataFrame) (sp : option string) (s e : Z) (target : Q) :
  s_gauge_color (salesperson_dashboard df sp s e target)
  = gauge_color_exact (s_revenue_achieved (salesperson_dashboard df sp s e target)) target /\
  s_gauge_color (pdf_salesperson_kpis df sp s e target)
  = gauge_color_exact (s_revenue_achieved (pdf_salesperson_kpis df sp s e target)) target.
Proof. split; reflexivity. Qed.

(** The rounding of [sales_target * 0.9] decides at the tier boundary: with
    a target of 7 a revenue of 6.3 is magenta, with a target of 13 a revenue
    of 11.7 is red. *)
Lemma gauge_color_at_rounded_boundaries :
  gauge_color 6.3 7 = "magenta" /\ gauge_color 11.7 13 = "red".
Proof. split; reflexivity. Qed.




(** ** C5 *)

Lemma conversion_rate_in_kpis (df : DataFrame) (sp : option string) (s e : Z) (target : Q) :
  s_conversion_rate (salesperson_dashboard df sp s e target)
  = conversion_rate (List.length (live_person_purchases df sp s e))
                    (List.length (live_person_df df sp s e)) /\
  s_conversion_rate (pdf_salesperson_kpis df sp s e target)
  = conversion_rate (List.length (pdf_person_purchases df sp s e))
                    (List.length (pdf_person_df df sp s e)).
Proof. split; reflexivity. Qed.





(** ** C10 *)

Lemma hours_all_missing (df : DataFrame) :
  (forall r, In r df -> timestamp r = None) ->
  omit (map (fun r => hour_of (timestamp r)) df) = [].
Proof.
  induction df as [|r df IH]; intros H; [reflexivity|].
  simpl. rewrite (H r (or_introl eq_refl)). simpl. apply IH.
  intros x Hx. apply H. now right.
Qed.

Lemma mode_all_missing (df : DataFrame) :
  (forall r, In r df -> timestamp r = None) ->
  mode (map (fun r => hour_of (timestamp r)) df) = [].
Proof.
  intros H. unfold mode. rewrite (hours_all_missing df H). reflexivity.
Qed.

Lemma pd_to_datetime_parsed (l : list (option Z)) :
  pd_to_datetime (map time_cell_of l) = Ok l.
Proof.
  induction l as [|[t|] l IH]; simpl; [reflexivity| |]; now rewrite IH.
Qed.

Lemma pd_to_datetime_all_missing (col : list time_cell) :
  (forall c, In c col -> c = NoStamp) ->
  pd_to_datetime col = Ok (map (fun _ => None) col).
Proof.
  induction col as [|c col IH]; intros H; [reflexivity|].
  rewrite (H c (or_introl eq_refl)). simpl.
  rewrite IH; [reflexivity|]. intros x Hx. apply H. now right.
Qed.

Lemma pd_to_datetime_bad (col : list time_cell) (text : string) :
  In (BadStamp text) col -> exists msg, pd_to_datetime col = Raise (ValueError msg).
Proof.
  induction col as [|c col IH]; intros H; [destruct H|].
  destruct H as [->|H]; [simpl; eexists; reflexivity|].
  destruct (IH H) as (msg & E).
  destruct c; simpl; rewrite ?E; eexists; reflexivity.
Qed.

Lemma hours_of_missing (col : list time_cell) :
  omit (map hour_of (map (fun _ : time_cell => @None Z) col)) = [].
Proof. induction col as [|c col IH]; [reflexivity | exact IH]. Qed.

(** C10. In Marketer mode, for every non-empty working subset whose time
    stamps are all missing, computing the most active hour raises an index
    error, in the live view and in the PDF export: the guard only asks
    whether the hour column has rows, and the mode of a column of missing
    values is empty. The empty working subset gives the placeholder "N/A".
    A time stamp that is a text and no date does not get that far: the
    conversion of the column raises a value error. *)
Theorem C10_most_active_hour_all_null (df : DataFrame) (timestamp_col : list time_cell) :
  (df <> [] ->
   (forall r, In r df -> timestamp r = None) ->
   most_active_hour df = Raise IndexError /\
   live_marketer_kpis df = Raise IndexError /\
   pdf_marketer_kpis df = Raise IndexError) /\
  (timestamp_col <> [] ->
   (forall c, In c timestamp_col -> c = NoStamp) ->
   most_active_hour_of_column timestamp_col = Raise IndexError) /\
  most_active_hour [] = Ok NotAvailable /\
  most_active_hour_of_column [] = Ok NotAvailable /\
  (exists k, live_marketer_kpis [] = Ok k /\ k_most_active_hour k = NotAvailable) /\
  (exists k, pdf_marketer_kpis [] = Ok k /\ k_most_active_hour k = NotAvailable) /\
  most_active_hour_of_column (map (fun r => time_cell_of (timestamp r)) df)
  = most_active_hour df /\
  (forall text, In (BadStamp text) timestamp_col ->
     exists msg, most_active_hour_of_column timestamp_col = Raise (ValueError msg)).
Proof.
  split; [|split; [|split; [|split; [|split; [|split; [|split]]]]]].
  - intros Hne Hnull.
    pose proof (mode_all_missing df Hnull) as Hmode.
    destruct df as [|r df]; [congruence|].
    unfold most_active_hour, live_marketer_kpis, pdf_marketer_kpis.
    rewrite Hmode. simpl. repeat split; reflexivity.
  - intros Hne Hnull. unfold most_active_hour_of_column.
    rewrite (pd_to_datetime_all_missing _ Hnull). cbv zeta.
    unfold mode. rewrite hours_of_missing.
    destruct timestamp_col as [|c col]; [congruence|]. reflexivity.
  - reflexivity.
  - reflexivity.
  - eexists; split; reflexivity.
  - eexists; split; reflexivity.
  - unfold most_active_hour_of_column, most_active_hour.
    rewrite <- (map_map timestamp time_cell_of), pd_to_datetime_parsed.
    cbv zeta. rewrite map_map. reflexivity.
  - intros text H. unfold most_active_hour_of_column.
    destruct (pd_to_datetime_bad _ _ H) as (msg & ->). exists msg. reflexivity.
Qed.

Lemma C10_most_active_hour_all_null_witness :
  live_marketer_kpis [visit "s1" 120 None; visit "s2" 80 None] = Raise IndexError /\
  pdf_marketer_kpis [visit "s1" 120 None; visit "s2" 80 None] = Raise IndexError /\
  most_active_hour_of_column [NoStamp; NoStamp] = Raise IndexError /\
  (exists msg, most_active_hour_of_column [NoStamp; BadStamp "soon"]
               = Raise (ValueError msg)).
Proof.
  assert (Hne : [visit "s1" 120 None; visit "s2" 80 None] <> []) by discriminate.
  assert (Hnull : forall r, In r [visit "s1" 120 None; visit "s2" 80 None] ->
                            timestamp r = None).
  { intros r [H|[H|[]]]; subst r; reflexivity. }
  destruct (C10_most_active_hour_all_null
              [visit "s1" 120 None; visit "s2" 80 None] [NoStamp; NoStamp])
    as (Hdf & Hcol & _).
  destruct (Hdf Hne Hnull) as (_ & Hl & Hp).
  split; [exact Hl|]. split; [exact Hp|]. split.
  - apply Hcol; [discriminate|]. intros c [<-|[<-|[]]]; reflexivity.
  - apply (proj2 (proj2 (proj2 (proj2 (proj2 (proj2 (proj2
             (C10_most_active_hour_all_null [] [NoStamp; BadStamp "soon"]))))))) "soon").
    right. left. reflexivity.
Defined.

(** A non-empty column in which every time stamp is missing or no date, one
    of them being no date: the conversion raises a value error, not the
    index error of the first mode. *)
Lemma C10_unparseable_is_a_value_error :
  [BadStamp "soon"; NoStamp] <> [] /\
  most_active_hour_of_column [BadStamp "soon"; NoStamp]
  = Raise (ValueError "Unknown datetime string format, unable to parse: soon") /\
  most_active_hour_of_column [BadStamp "soon"; NoStamp] <> Raise IndexError.
Proof.
  split; [discriminate|]. split; [reflexivity|]. vm_compute. discriminate.
Qed.

(** ** C7 *)

Lemma Qltb_true (x y : Q) : Qltb x y = true <-> (x < y)%Q.
Proof. unfold Qltb. rewrite negb_true_iff. apply Qle_bool_false. Qed.

Lemma Qltb_false (x y : Q) : Qltb x y = false <-> (y <= x)%Q.
Proof. unfold Qltb. rewrite negb_false_iff. apply Qle_bool_iff. Qed.

Lemma Qeq_bool_false (x y : Q) : Qeq_bool x y = false <-> ~ (x == y)%Q.
Proof.
  split.
  - intros H E. apply Qeq_bool_iff in E. congruence.
  - intros H. destruct (Qeq_bool x y) eqn:E; [|reflexivity].
    apply Qeq_bool_iff in E. contradiction.
Qed.

(** The group of an age, read off the bin edges. *)
Lemma age_group_by_edges (r : Row) (a : Q) :
  customer_age r = Some a ->
  ((0 <= a)%Q -> (a <= 20)%Q -> age_group r = Some "0-20") /\
  ((20 < a)%Q -> (a <= 30)%Q -> age_group r = Some "21-30") /\
  ((30 < a)%Q -> (a <= 40)%Q -> age_group r = Some "31-40") /\
  ((40 < a)%Q -> (a <= 50)%Q -> age_group r = Some "41-50") /\
  ((50 < a)%Q -> (a <= 100)%Q -> age_group r = Some "51+") /\
  ((100 < a)%Q -> age_group r = None) /\
  ((a < 0)%Q -> age_group r = None).
Proof.
  intros Ha. unfold age_group, pd_cut, searchsorted_left, age_bins. rewrite Ha. simpl hd.
  assert (B : forall b : Q,
             ((b < a)%Q -> Qltb b a = true) /\ ((a <= b)%Q -> Qltb b a = false)).
  { intros b. split; intros H; [now apply Qltb_true | now apply Qltb_false]. }
  assert (Z0 : ((a == 0)%Q -> Qeq_bool a 0 = true) /\ (~ (a == 0)%Q -> Qeq_bool a 0 = false)).
  { split; intros H; [now apply Qeq_bool_iff | now apply Qeq_bool_false]. }
  repeat split; intros;
    destruct (Qeq_dec a 0) as [E|E];
    rewrite ?(proj1 Z0 E), ?(proj2 Z0 E); simpl andb; cbv iota;
    try reflexivity; try (exfalso; lra);
    simpl filter;
    (rewrite ?(proj1 (B 0%Q)), ?(proj2 (B 0%Q)),
             ?(proj1 (B 20%Q)), ?(proj2 (B 20%Q)),
             ?(proj1 (B 30%Q)), ?(proj2 (B 30%Q)),
             ?(proj1 (B 40%Q)), ?(proj2 (B 40%Q)),
             ?(proj1 (B 50%Q)), ?(proj2 (B 50%Q)),
             ?(proj1 (B 100%Q)), ?(proj2 (B 100%Q)) by lra);
    reflexivity.
Qed.

(** C7. In Marketer mode the product-sales-by-age aggregate
    puts every purchase row whose customer age lies in [0, 100] into exactly
    one of the 5 buckets with edges 0/20/30/40/50/100, every bucket
    containing its upper edge and not its lower edge, except the first,
    which also contains 0; so the boundary ages 20, 30, 40 and 50 fall into
    the bucket whose upper edge they equal ("0-20", "21-30", "31-40",
    "41-50"). *)
Theorem C7_age_groups_upper_inclusive (r : Row) (a : Q) :
  customer_age r = Some a -> (0 <= a)%Q -> (a <= 100)%Q ->
  (exists i label,
     nth_error age_labels i = Some label /\
     age_group r = Some label /\
     in_bucket i a /\
     forall j, in_bucket j a -> j = i) /\
  age_group (aged 0) = Some "0-20" /\
  age_group (aged 20) = Some "0-20" /\
  age_group (aged 30) = Some "21-30" /\
  age_group (aged 40) = Some "31-40" /\
  age_group (aged 50) = Some "41-50" /\
  age_group (aged 100) = Some "51+".
Proof.
  intros Ha H0 H100.
  split; [|repeat split; vm_compute; reflexivity].
  destruct (age_group_by_edges r a Ha) as (G0 & G1 & G2 & G3 & G4 & _).
  assert (U : forall i j : nat, in_bucket j a ->
            (i = 0%nat -> (a <= 20)%Q -> j = i) /\
            (i = 1%nat -> (20 < a)%Q -> (a <= 30)%Q -> j = i) /\
            (i = 2%nat -> (30 < a)%Q -> (a <= 40)%Q -> j = i) /\
            (i = 3%nat -> (40 < a)%Q -> (a <= 50)%Q -> j = i) /\
            (i = 4%nat -> (50 < a)%Q -> j = i)).
  { intros i j (lo & hi & Hlo & Hhi & Hl & Hh).
    do 5 (destruct j as [|j]; [simpl in Hlo, Hhi; injection Hlo as <-; injection Hhi as <-;
                               repeat split; intros; subst i;
                               try reflexivity; exfalso;
                               destruct Hl as [Hl|[Hj Hl]]; try discriminate; lra|]).
    exfalso. destruct j; simpl in Hhi; discriminate. }
  destruct (Qlt_le_dec 20 a) as [L20|L20];
    [destruct (Qlt_le_dec 30 a) as [L30|L30];
     [destruct (Qlt_le_dec 40 a) as [L40|L40];
      [destruct (Qlt_le_dec 50 a) as [L50|L50]|]|]|].
  - exists 4%nat, "51+". split; [reflexivity|]. split; [now apply G4|]. split.
    + exists 50%Q, 100%Q. repeat split; auto.
    + intros j Hj. destruct (U 4%nat j Hj) as (_ & _ & _ & _ & V). now apply V.
  - exists 3%nat, "41-50". split; [reflexivity|]. split; [now apply G3|]. split.
    + exists 40%Q, 50%Q. repeat split; auto.
    + intros j Hj. destruct (U 3%nat j Hj) as (_ & _ & _ & V & _). now apply V.
  - exists 2%nat, "31-40". split; [reflexivity|]. split; [now apply G2|]. split.
    + exists 30%Q, 40%Q. repeat split; auto.
    + intros j Hj. destruct (U 2%nat j Hj) as (_ & _ & V & _ & _). now apply V.
  - exists 1%nat, "21-30". split; [reflexivity|]. split; [now apply G1|]. split.
    + exists 20%Q, 30%Q. repeat split; auto.
    + intros j Hj. destruct (U 1%nat j Hj) as (_ & V & _ & _ & _). now apply V.
  - exists 0%nat, "0-20". split; [reflexivity|]. split; [now apply G0|]. split.
    + exists 0%Q, 20%Q. repeat split; auto.
      destruct (Qeq_dec a 0) as [E|E]; [right; split; [reflexivity|exact E] | left; lra].
    + intros j Hj. destruct (U 0%nat j Hj) as (V & _ & _ & _ & _). now apply V.
Qed.

Lemma C7_age_groups_upper_inclusive_witness :
  exists i label,
    nth_error age_labels i = Some label /\
    age_group (aged 20) = Some label /\
    in_bucket i 20 /\
    forall j, in_bucket j 20 -> j = i.
Proof.
  apply (proj1 (C7_age_groups_upper_inclusive (aged 20) 20 eq_refl
                  ltac:(discriminate) ltac:(discriminate))).
Defined.

(** Age 20 is grouped under "0-20", the bucket that ends at 20, and not
    under the bucket that starts at 20. *)
Lemma C7_age_20_in_bucket_ending_at_20 :
  age_group (aged 20) = Some "0-20" /\
  lower_inclusive_bucket 20 = Some "21-30" /\
  age_group (aged 20) <> lower_inclusive_bucket 20 /\
  age_group (aged 30) <> lower_inclusive_bucket 30 /\
  age_group (aged 40) <> lower_inclusive_bucket 40 /\
  age_group (aged 50) <> lower_inclusive_bucket 50.
Proof.
  repeat split; try (vm_compute; reflexivity); vm_compute; discriminate.
Qed.

(** Ages above the last edge, which the loader accepts up to 120, get no
    group at all. *)
Lemma age_above_100_has_no_group (r : Row) (a : Q) :
  customer_age r = Some a -> (100 < a)%Q -> age_group r = None.
Proof.
  intros Ha H.
  destruct (age_group_by_edges r a Ha) as (_ & _ & _ & _ & _ & G & _). now apply G.
Qed.

(** ** C6 *)

Lemma prefix_self_app (s b : string) : String.prefix s (s ++ b) = true.
Proof.
  induction s as [|a s IH]; simpl; [destruct b; reflexivity|].
  destruct (ascii_dec a a) as [_|N]; [exact IH | now elim N].
Qed.

Lemma prefix_self (s : string) : String.prefix s s = true.
Proof.
  induction s as [|a s IH]; simpl; [reflexivity|].
  destruct (ascii_dec a a) as [_|N]; [exact IH | now elim N].
Qed.

Lemma occurs_prefix (s t : string) : String.prefix s t = true -> occurs s t = true.
Proof. intros H. destruct t; cbn [occurs]; rewrite H; reflexivity. Qed.

Lemma occurs_self_app (s b : string) : occurs s (s ++ b) = true.
Proof. apply occurs_prefix, prefix_self_app. Qed.

Lemma occurs_self (s : string) : occurs s s = true.
Proof. apply occurs_prefix, prefix_self. Qed.

Lemma occurs_skip (s a t : string) : occurs s t = true -> occurs s (a ++ t) = true.
Proof.
  intros H. induction a as [|c a IH]; simpl; [exact H|].
  change ((String.prefix s (String c (a ++ t)) || occurs s (a ++ t)) = true).
  rewrite IH. apply orb_true_r.
Qed.

Lemma occurs_concat (sep c : string) (l : list string) :
  In c l -> occurs c (String.concat sep l) = true.
Proof.
  induction l as [|x l IH]; intros H; [destruct H|].
  destruct l as [|y l].
  - destruct H as [->|[]]. simpl. apply occurs_self.
  - change (String.concat sep (x :: y :: l)) with (x ++ sep ++ String.concat sep (y :: l)).
    destruct H as [->|H].
    + apply occurs_self_app.
    + apply occurs_skip, occurs_skip, IH, H.
Qed.

Lemma read_csv_dates_present (t : CsvTable) :
  has_column (columns t) "sale_date" = true ->
  has_column (columns t) "timestamp" = true ->
  read_csv (Some t) ["sale_date"; "timestamp"] = Ok t.
Proof.
  intros Hs Ht. unfold read_csv. cbn [filter]. rewrite Hs, Ht. reflexivity.
Qed.

(** When the header has both date columns, a table without some required
    column is refused with the one message that names every missing column,
    in the order of [required_columns]. *)
Lemma load_data_missing_columns (t : CsvTable) :
  has_column (columns t) "sale_date" = true ->
  has_column (columns t) "timestamp" = true ->
  filter (fun col => negb (has_column (columns t) col)) required_columns <> [] ->
  load_data (Some t)
  = Stopped ("Missing required columns: "
             ++ String.concat ", "
                  (filter (fun col => negb (has_column (columns t) col)) required_columns)) /\
  forall col, In col required_columns -> has_column (columns t) col = false ->
    occurs col ("Missing required columns: "
                ++ String.concat ", "
                     (filter (fun col => negb (has_column (columns t) col)) required_columns))
    = true.
Proof.
  intros Hs Ht Hm. split.
  - unfold load_data. rewrite (read_csv_dates_present t Hs Ht).
    destruct (filter (fun col => negb (has_column (columns t) col)) required_columns)
      as [|c l] eqn:E; [congruence|]. reflexivity.
  - intros col Hin Hcol. apply occurs_skip, occurs_concat.
    apply filter_In. split; [exact Hin|]. now rewrite Hcol.
Qed.

(** C6. A file whose header lacks [sale_date] and [country] is refused, but
    by the generic handler: [read_csv] rejects the missing [parse_dates]
    column before the list of missing columns is built, and the message
    names [sale_date] only, not [country]. A file that lacks only
    [customer_age] is refused with the message that lists it. *)
Theorem C6_missing_sale_date_hides_other_columns :
  let header := without all_columns ["sale_date"; "country"] in
  has_column required_columns "sale_date" = true /\
  has_column required_columns "country" = true /\
  has_column header "sale_date" = false /\
  has_column header "country" = false /\
  load_data (Some (mkCsv header []))
  = Stopped "Error loading data: Missing column provided to 'parse_dates': 'sale_date'" /\
  occurs "country"
    "Error loading data: Missing column provided to 'parse_dates': 'sale_date'" = false /\
  load_data (Some (mkCsv (without all_columns ["customer_age"]) []))
  = Stopped "Missing required columns: customer_age".
Proof.
  cbv zeta. repeat split; vm_compute; reflexivity.
Qed.

(** ** C9 *)

Module PdfExportFacts.
Import PdfExport.

Lemma world_eta (w : World) : mkWorld (tmp_files w) (next_tmp w) = w.
Proof. destruct w; reflexivity. Qed.

(** When every figure renders, [build_charts] creates one file per figure,
    with consecutive names, and records them in order. *)
Lemma build_charts_ok (figs : list Chart) :
  forall (charts : list (nat * Chart)) (w : World),
    forallb renders figs = true ->
    build_charts figs charts w
    = (Ok (charts ++ combine (seq (next_tmp w) (List.length figs)) figs)%list,
       mkWorld (rev (seq (next_tmp w) (List.length figs)) ++ tmp_files w)
               (next_tmp w + List.length figs)%nat).
Proof.
  induction figs as [|fig figs IH]; intros charts w H.
  - simpl. unfold ret. rewrite app_nil_r, Nat.add_0_r, world_eta. reflexivity.
  - simpl in H. apply andb_prop in H. destruct H as [Hf Hr].
    cbn [build_charts]. unfold bind at 1. unfold NamedTemporaryFile.
    unfold bind at 1. unfold write_image. rewrite Hf. unfold ret at 1.
    rewrite (IH _ _ Hr). cbn [next_tmp tmp_files List.length seq combine rev].
    rewrite <- !app_assoc. cbn [app]. rewrite Nat.add_succ_r. reflexivity.
Qed.

(** When a figure fails to render, [build_charts] raises at once: the file
    of that figure and the files of the figures before it all remain. *)
Lemma build_charts_fail (good : list Chart) :
  forall (bad : Chart) (rest : list Chart) (charts : list (nat * Chart)) (w : World),
    forallb renders good = true ->
    renders bad = false ->
    build_charts (good ++ bad :: rest) charts w
    = (Raise (ValueError "write_image"),
       mkWorld (rev (seq (next_tmp w) (S (List.length good))) ++ tmp_files w)
               (next_tmp w + S (List.length good))%nat).
Proof.
  induction good as [|fig good IH]; intros bad rest charts w Hg Hb.
  - cbn [app build_charts]. unfold bind at 1. unfold NamedTemporaryFile.
    unfold bind at 1. unfold write_image. rewrite Hb. unfold raise.
    cbn [List.length seq rev app]. rewrite Nat.add_1_r. reflexivity.
  - simpl in Hg. apply andb_prop in Hg. destruct Hg as [Hf Hg].
    cbn [app build_charts]. unfold bind at 1. unfold NamedTemporaryFile.
    unfold bind at 1. unfold write_image. rewrite Hf. unfold ret at 1.
    rewrite (IH bad rest _ _ Hg Hb). cbn [next_tmp tmp_files List.length].
    change (seq (next_tmp w) (S (S (List.length good))))
      with (next_tmp w :: seq (S (next_tmp w)) (S (List.length good))).
    cbn [rev]. rewrite <- !app_assoc. cbn [app]. rewrite (Nat.add_succ_r (next_tmp w)).
    reflexivity.
Qed.

Lemma filter_remove (f : nat -> bool) (p : nat) (l : list nat) :
  filter f (remove Nat.eq_dec p l) = filter (fun x => negb (Nat.eqb p x) && f x) l.
Proof.
  induction l as [|x l IH]; [reflexivity|]. simpl.
  destruct (Nat.eq_dec p x) as [->|N].
  - rewrite Nat.eqb_refl. simpl. exact IH.
  - apply Nat.eqb_neq in N. rewrite N. simpl. destruct (f x); now rewrite IH.
Qed.

Lemma existsb_eqb_In (p : nat) (l : list nat) : existsb (Nat.eqb p) l = true <-> In p l.
Proof.
  rewrite existsb_exists. split.
  - intros (x & Hx & E). apply Nat.eqb_eq in E. now subst.
  - intros H. exists p. split; [exact H | apply Nat.eqb_refl].
Qed.

(** When every chart can be drawn and its file exists, the loop removes
    exactly the files of the charts. *)
Lemma embed_charts_ok (charts : list (nat * Chart)) :
  forall w : World,
    NoDup (map fst charts) ->
    forallb (fun c => embeds (snd c)) charts = true ->
    (forall p, In p (map fst charts) -> In p (tmp_files w)) ->
    embed_charts charts w
    = (Ok tt,
       mkWorld (filter (fun p => negb (existsb (Nat.eqb p) (map fst charts))) (tmp_files w))
               (next_tmp w)).
Proof.
  induction charts as [|[p fig] charts IH]; intros w Hnd He Hin.
  - simpl. unfold ret. rewrite filter_all_true by reflexivity.
    now rewrite world_eta.
  - simpl in He. apply andb_prop in He. destruct He as [Hf He].
    inversion Hnd as [|? ? Hp Hnd']; subst.
    cbn [embed_charts]. unfold bind at 1. unfold drawImage. rewrite Hf. unfold ret at 1.
    unfold bind at 1. unfold unlink.
    assert (Hex : existsb (Nat.eqb p) (tmp_files w) = true).
    { apply existsb_eqb_In, Hin. now left. }
    rewrite Hex. rewrite IH; [|exact Hnd'|exact He|].
    + cbn [tmp_files next_tmp]. rewrite filter_remove. f_equal. f_equal.
      apply filter_ext. intros x. simpl. rewrite negb_orb.
      rewrite (Nat.eqb_sym x p). reflexivity.
    + intros q Hq. cbn [tmp_files]. apply in_in_remove.
      * intros ->. contradiction.
      * apply Hin. now right.
Qed.

Lemma map_fst_combine_seq (figs : list Chart) (n : nat) :
  map fst (combine (seq n (List.length figs)) figs) = seq n (List.length figs).
Proof.
  revert n. induction figs as [|f figs IH]; intros n; simpl; [reflexivity|].
  now rewrite IH.
Qed.

Lemma forallb_combine_seq (g : Chart -> bool) (figs : list Chart) (n : nat) :
  forallb (fun c => g (snd c)) (combine (seq n (List.length figs)) figs) = forallb g figs.
Proof.
  revert n. induction figs as [|f figs IH]; intros n; simpl; [reflexivity|].
  now rewrite IH.
Qed.

Lemma forallb_and (figs : list Chart) :
  forallb (fun f => renders f && embeds f) figs = true ->
  forallb renders figs = true /\ forallb embeds figs = true.
Proof.
  induction figs as [|f figs IH]; simpl; intros H; [split; reflexivity|].
  apply andb_prop in H. destruct H as [H1 H2]. apply andb_prop in H1.
  destruct H1 as [Hr He]. destruct (IH H2) as [IHr IHe].
  rewrite Hr, He, IHr, IHe. split; reflexivity.
Qed.

End PdfExportFacts.

(** C9. During a PDF export in which every chart is rendered and embedded
    without error, every temporary chart-image file created for the report
    is deleted after being embedded: the export ends normally and the
    temporary directory holds the files it held before. When rendering a
    chart fails, the export raises and every temporary file created so far,
    those of the charts rendered before included, is left in place. *)
Theorem C9_temp_files_cleanup (figs : list PdfExport.Chart) (w : PdfExport.World) :
  ((forall p, In p (PdfExport.tmp_files w) -> (p < PdfExport.next_tmp w)%nat) ->
   forallb (fun f => PdfExport.renders f && PdfExport.embeds f) figs = true ->
   exists w', PdfExport.generate_pdf figs w = (Ok tt, w') /\
              PdfExport.tmp_files w' = PdfExport.tmp_files w) /\
  (forall good bad rest,
     figs = (good ++ bad :: rest)%list ->
     forallb PdfExport.renders good = true ->
     PdfExport.renders bad = false ->
     exists e w', PdfExport.generate_pdf figs w = (Raise e, w') /\
                  PdfExport.tmp_files w'
                  = (rev (seq (PdfExport.next_tmp w) (S (List.length good)))
                     ++ PdfExport.tmp_files w)%list).
Proof.
  split.
  - intros Hfresh Hok.
    destruct (PdfExportFacts.forallb_and figs Hok) as [Hr He].
    unfold PdfExport.generate_pdf, PdfExport.bind.
    rewrite (PdfExportFacts.build_charts_ok figs [] w Hr). cbn [app].
    rewrite PdfExportFacts.embed_charts_ok.
    + eexists. split; [reflexivity|]. cbn [PdfExport.tmp_files].
      rewrite PdfExportFacts.map_fst_combine_seq, filter_app.
      replace (filter _ (rev (seq (PdfExport.next_tmp w) (List.length figs)))) with (@nil nat).
      * simpl. apply filter_all_true. intros p Hp.
        apply negb_true_iff. destruct (existsb _ _) eqn:E; [|reflexivity].
        apply PdfExportFacts.existsb_eqb_In, in_seq in E.
        specialize (Hfresh p Hp). lia.
      * symmetry. apply filter_all_false. intros p Hp.
        apply negb_false_iff. apply PdfExportFacts.existsb_eqb_In. now apply in_rev.
    + rewrite PdfExportFacts.map_fst_combine_seq. apply seq_NoDup.
    + rewrite PdfExportFacts.forallb_combine_seq. exact He.
    + intros p Hp. rewrite PdfExportFacts.map_fst_combine_seq in Hp.
      cbn [PdfExport.tmp_files]. apply in_or_app. left. now apply in_rev in Hp.
  - intros good bad rest -> Hg Hb.
    unfold PdfExport.generate_pdf, PdfExport.bind.
    rewrite (PdfExportFacts.build_charts_fail good bad rest [] w Hg Hb).
    eexists. eexists. split; reflexivity.
Qed.

Lemma C9_temp_files_cleanup_witness :
  (exists w',
     PdfExport.generate_pdf
       [PdfExport.mkChart "Total Revenue by Product" true true;
        PdfExport.mkChart "Sales by Channel" true true] (PdfExport.mkWorld [] 0)
     = (Ok tt, w') /\
     PdfExport.tmp_files w' = []) /\
  (exists e w',
     PdfExport.generate_pdf
       [PdfExport.mkChart "Total Revenue by Product" true true;
        PdfExport.mkChart "Sales by Channel" false true] (PdfExport.mkWorld [] 0)
     = (Raise e, w') /\
     PdfExport.tmp_files w' = [1%nat; 0%nat]).
Proof.
  split.
  - apply (proj1 (C9_temp_files_cleanup
                    [PdfExport.mkChart "Total Revenue by Product" true true;
                     PdfExport.mkChart "Sales by Channel" true true]
                    (PdfExport.mkWorld [] 0))).
    + intros p [].
    + reflexivity.
  - apply (proj2 (C9_temp_files_cleanup
                    [PdfExport.mkChart "Total Revenue by Product" true true;
                     PdfExport.mkChart "Sales by Channel" false true]
                    (PdfExport.mkWorld [] 0))
             [PdfExport.mkChart "Total Revenue by Product" true true]
             (PdfExport.mkChart "Sales by Channel" false true) []);
      reflexivity.
Defined.

(** When rendering the second chart fails, the export raises and both
    temporary files are still there; likewise when embedding the first chart
    fails. *)
Lemma C9_failure_leaves_temp_files :
  PdfExport.generate_pdf
    [PdfExport.mkChart "Total Revenue by Product" true true;
     PdfExport.mkChart "Sales by Channel" false true] (PdfExport.mkWorld [] 0)
  = (Raise (ValueError "write_image"), PdfExport.mkWorld [1%nat; 0%nat] 2) /\
  PdfExport.generate_pdf
    [PdfExport.mkChart "Total Revenue by Product" true false;
     PdfExport.mkChart "Sales by Channel" true true] (PdfExport.mkWorld [] 0)
  = (Raise OSError, PdfExport.mkWorld [1%nat; 0%nat] 2) /\
  PdfExport.tmp_files (PdfExport.mkWorld [1%nat; 0%nat] 2) <> [].
Proof.
  repeat split; try reflexivity. discriminate.
Qed.

(** ** C8 *)

Lemma insert_sorted_perm {A : Type} (leb : A -> A -> bool) (x : A) (l : list A) :
  Permutation (insert_sorted leb x l) (x :: l).
Proof.
  induction l as [|y l IH]; simpl; [apply Permutation_refl|].
  destruct (leb x y); [apply Permutation_refl|].
  apply perm_trans with (y :: x :: l); [now apply perm_skip | apply perm_swap].
Qed.

Lemma sort_by_perm {A : Type} (leb : A -> A -> bool) (l : list A) :
  Permutation (sort_by leb l) l.
Proof.
  induction l as [|x l IH]; simpl; [apply perm_nil|].
  apply perm_trans with (x :: sort_by leb l); [apply insert_sorted_perm | now apply perm_skip].
Qed.

Lemma omit_perm {A : Type} (l l' : list (option A)) :
  Permutation l l' -> Permutation (omit l) (omit l').
Proof.
  induction 1 as [|[a|] l l' _ IH|[a|] [b|] l|l l' l'' _ IH1 _ IH2]; simpl;
    try apply Permutation_refl; auto using perm_skip, perm_swap.
  now apply perm_trans with (omit l').
Qed.

Lemma Qsum_perm (l l' : list Q) : Permutation l l' -> (Qsum l == Qsum l')%Q.
Proof.
  induction 1 as [|x l l' _ IH|x y l|l l' l'' _ IH1 _ IH2]; simpl.
  - reflexivity.
  - now rewrite IH.
  - ring.
  - now rewrite IH1.
Qed.

Lemma average_perm (l l' : list Q) :
  Permutation l l' -> same_number (average l) (average l').
Proof.
  intros H. pose proof (Permutation_length H) as Hlen. pose proof (Qsum_perm l l' H) as Hsum.
  destruct l as [|x l], l' as [|y l']; try discriminate; simpl; [exact I|].
  simpl in Hlen. injection Hlen as Hlen.
  unfold same_number, average. simpl List.length. rewrite Hlen, Hsum. reflexivity.
Qed.

Lemma series_mean_average (s : list (option Q)) : series_mean s = average (omit s).
Proof. unfold series_mean, average. destruct (omit s); reflexivity. Qed.

(** The mean of the group means, written over the group keys. *)
Lemma avg_session_length_by_keys (r : Row) (df : DataFrame) :
  avg_session_length (r :: df)
  = average (omit (map (session_mean (r :: df)) (group_keys session_id (r :: df)))).
Proof.
  unfold avg_session_length. cbn [is_empty negb].
  rewrite series_mean_average. unfold groupby_mean, groupby.
  rewrite !map_map. cbn [fst snd]. f_equal. f_equal.
  apply map_ext. intros k. apply series_mean_average.
Qed.

(** C8. In Marketer mode, for every non-empty working subset, the average
    session length, in the live view and in the PDF, is the unweighted mean,
    over the distinct sessions, of each session's mean response time; it is
    0 for an empty working subset; and it is not the mean over all rows:
    with sessions a = (10, 20) and b = (60) it is (15 + 60) / 2, not
    90 / 3. *)
Theorem C8_average_session_length_mean_of_means (df : DataFrame) :
  (df <> [] -> same_number (avg_session_length df) (mean_of_session_means df)) /\
  (forall k, live_marketer_kpis df = Ok k -> k_avg_session_length k = avg_session_length df) /\
  (forall k, pdf_marketer_kpis df = Ok k -> k_avg_session_length k = avg_session_length df) /\
  avg_session_length [] = Some 0%Q /\
  (let log := [visit "a" 10 (Some 0); visit "a" 20 (Some 0); visit "b" 60 (Some 0)] in
   same_number (avg_session_length log) (Some (75 # 2)) /\
   same_number (mean_over_rows log) (Some 30%Q) /\
   ~ same_number (avg_session_length log) (mean_over_rows log)).
Proof.
  split; [|split; [|split; [|split]]].
  - intros Hne. destruct df as [|r df]; [congruence|].
    rewrite avg_session_length_by_keys. unfold mean_of_session_means.
    apply average_perm, omit_perm, Permutation_map.
    unfold group_keys, distinct_sessions. apply sort_by_perm.
  - intros k. unfold live_marketer_kpis.
    destruct (if negb (is_empty (map (fun r => hour_of (timestamp r)) df)) then _ else _);
      intros H; [|discriminate]. injection H as <-. reflexivity.
  - intros k. unfold pdf_marketer_kpis.
    destruct (if negb (is_empty (map (fun r => hour_of (timestamp r)) df)) then _ else _);
      intros H; [|discriminate]. injection H as <-. reflexivity.
  - reflexivity.
  - cbv zeta. split; [vm_compute; reflexivity|]. split; [vm_compute; reflexivity|].
    vm_compute. discriminate.
Qed.

Lemma C8_average_session_length_mean_of_means_witness :
  let log := [visit "a" 10 (Some 0); visit "a" 20 (Some 0); visit "b" 60 (Some 0)] in
  same_number (avg_session_length log) (mean_of_session_means log) /\
  (exists k, live_marketer_kpis log = Ok k /\ k_avg_session_length k = avg_session_length log).
Proof.
  cbv zeta. split.
  - apply (proj1 (C8_average_session_length_mean_of_means
                    [visit "a" 10 (Some 0); visit "a" 20 (Some 0); visit "b" 60 (Some 0)])).
    discriminate.
  - eexists. split; [reflexivity|].
    apply (proj1 (proj2 (C8_average_session_length_mean_of_means
                    [visit "a" 10 (Some 0); visit "a" 20 (Some 0); visit "b" 60 (Some 0)]))).
    reflexivity.
Defined.

(** * Further properties of the script *)

(** ** The filter engine as one mask *)

Lemma filter_filter {A : Type} (f g : A -> bool) (l : list A) :
  filter f (filter g l) = filter (fun x => g x && f x) l.
Proof.
  induction l as [|a l IH]; [reflexivity|]. simpl.
  destruct (g a); simpl; [destruct (f a)|]; now rewrite IH.
Qed.

Lemma optional_filter {A : Type} (off : bool) (f : A -> bool) (l : list A) :
  (if negb off then filter f l else l) = filter (fun x => off || f x) l.
Proof.
  destruct off; simpl; [|reflexivity].
  symmetry. now apply filter_all_true.
Qed.

(** X1. The six successive filters of [filter_data] amount to one mask:
    the result is the frame restricted, in row order, to the rows on which
    every active criterion holds; so a row is kept exactly when it is in the
    frame and matches, and filtering the result again changes nothing. *)
Theorem filter_data_is_one_mask (m : string -> option string -> bool) (df : DataFrame)
    (co ca ch kw : string) (sp : option string) (s e : Z) :
  filter_data m df co ca ch kw sp s e = filter (row_matches m co ca ch kw sp s e) df /\
  (forall r, In r (filter_data m df co ca ch kw sp s e) <->
             In r df /\ row_matches m co ca ch kw sp s e r = true) /\
  filter_data m (filter_data m df co ca ch kw sp s e) co ca ch kw sp s e
  = filter_data m df co ca ch kw sp s e.
Proof.
  assert (E : forall d, filter_data m d co ca ch kw sp s e
                        = filter (row_matches m co ca ch kw sp s e) d).
  { intros d. unfold filter_data. rewrite !optional_filter.
    replace (match salesperson_selected sp with
             | Some n => filter (fun r => str_eq (salesperson r) n) _
             | None => _
             end)
      with (filter (fun r => match salesperson_selected sp with
                             | Some n => str_eq (salesperson r) n
                             | None => true
                             end)
              (filter (fun r => (kw =? "")%string
                                || (m kw (product_name r) || m kw (url_requested r)))
                 (filter (fun r => (ch =? "All")%string || str_eq (sales_channel r) ch)
                    (filter (fun r => (ca =? "All")%string || str_eq (category r) ca)
                       (filter (fun r => (co =? "All")%string || str_eq (country r) co) d))))).
    - rewrite !filter_filter. apply filter_ext. intros r. unfold row_matches.
      rewrite !andb_assoc, !orb_assoc. reflexivity.
    - destruct (salesperson_selected sp); [reflexivity|]. now apply filter_all_true. }
  split; [apply E|]. split.
  - intros r. rewrite E. apply filter_In.
  - rewrite !E. apply filter_idempotent.
Qed.

(** X2. The date bounds of [filter_data] are time stamps: a kept row has a
    sale date between [start_date] and [end_date], a row without sale date
    is never kept, an inverted range keeps nothing, and with
    [pd.to_datetime(end_date)] as upper bound (the midnight that starts the
    end day) a sale later on the end day is left out. *)
Theorem filter_data_date_edges (m : string -> option string -> bool) (df : DataFrame)
    (co ca ch kw : string) (sp : option string) (s e : Z) :
  (forall r, In r (filter_data m df co ca ch kw sp s e) ->
             exists t, sale_date r = Some t /\ s <= t <= e) /\
  (e < s -> filter_data m df co ca ch kw sp s e = []) /\
  (forall r day t,
     e = to_datetime day -> sale_date r = Some t -> date_of t = day -> t <> to_datetime day ->
     ~ In r (filter_data m df co ca ch kw sp s e)).
Proof.
  assert (D : forall r, In r (filter_data m df co ca ch kw sp s e) ->
                        exists t, sale_date r = Some t /\ s <= t <= e).
  { intros r Hr. apply filter_data_rows in Hr. destruct Hr as [Hd _].
    unfold in_date_range, date_ge, date_le in Hd.
    destruct (sale_date r) as [t|]; [|discriminate].
    apply andb_prop in Hd. destruct Hd as [H1 H2].
    exists t. split; [reflexivity|]. apply Z.leb_le in H1. apply Z.leb_le in H2. lia. }
  split; [exact D|]. split.
  - intros Hinv. destruct (filter_data m df co ca ch kw sp s e) as [|r l] eqn:E; [reflexivity|].
    destruct (D r (or_introl eq_refl)) as (t & _ & Ht). lia.
  - intros r day t -> Ht Hday Hne Hr.
    destruct (D r Hr) as (t' & Ht' & Hle). rewrite Ht in Ht'. injection Ht' as <-.
    unfold date_of, to_datetime in *.
    pose proof (Z.div_mod t 86400 ltac:(lia)) as Hdm.
    pose proof (Z.mod_pos_bound t 86400 ltac:(lia)) as Hmod. lia.
Qed.

Lemma filter_data_date_edges_witness :
  let late := mkRow (Some (to_datetime 5 + 36000)) None None None None None None None None
                    None None None None None None None None None in
  ~ In late (filter_data no_keyword_match [late] "All" "All" "All" "" None
               (to_datetime 1) (to_datetime 5)).
Proof.
  cbv zeta.
  apply (proj2 (proj2 (filter_data_date_edges no_keyword_match
           [mkRow (Some (to_datetime 5 + 36000)) None None None None None None None None
                  None None None None None None None None None]
           "All" "All" "All" "" None (to_datetime 1) (to_datetime 5)))
           _ 5 (to_datetime 5 + 36000));
    [reflexivity | reflexivity | reflexivity | discriminate].
Defined.

(** ** Sorting facts *)

Lemma string_compare_trans (s1 : string) :
  forall s2 s3, String.compare s1 s2 <> Gt -> String.compare s2 s3 <> Gt ->
                String.compare s1 s3 <> Gt.
Proof.
  induction s1 as [|a s1 IH]; intros [|b s2] [|c s3]; simpl; try congruence.
  unfold Ascii.compare.
  destruct (N.compare_spec (N_of_ascii a) (N_of_ascii b)) as [E1|E1|E1];
    destruct (N.compare_spec (N_of_ascii b) (N_of_ascii c)) as [E2|E2|E2];
    destruct (N.compare_spec (N_of_ascii a) (N_of_ascii c)) as [E3|E3|E3];
    try congruence; try lia.
  apply IH.
Qed.

Lemma string_leb_trans (s1 s2 s3 : string) :
  String.leb s1 s2 = true -> String.leb s2 s3 = true -> String.leb s1 s3 = true.
Proof.
  unfold String.leb. intros H1 H2.
  pose proof (string_compare_trans s1 s2 s3) as T.
  destruct (String.compare s1 s2), (String.compare s2 s3), (String.compare s1 s3);
    try reflexivity; try discriminate; exfalso; apply T; congruence.
Qed.

Section SortFacts.
Context {A : Type} (leb : A -> A -> bool).
Hypothesis leb_total : forall a b, leb a b = true \/ leb b a = true.
Hypothesis leb_trans : forall a b c, leb a b = true -> leb b c = true -> leb a c = true.

Lemma insert_sorted_sorted (x : A) (l : list A) :
  StronglySorted (fun a b => leb a b = true) l ->
  StronglySorted (fun a b => leb a b = true) (insert_sorted leb x l).
Proof.
  induction 1 as [|y l Hs IH Hy]; simpl; [repeat constructor|].
  destruct (leb x y) eqn:E.
  - constructor; [now constructor|]. constructor; [exact E|].
    rewrite Forall_forall in *. intros z Hz. apply (leb_trans x y z E). now apply Hy.
  - constructor; [exact IH|].
    rewrite Forall_forall in *. intros z Hz.
    apply (Permutation_in _ (insert_sorted_perm leb x l)) in Hz.
    destruct Hz as [<-|Hz]; [|now apply Hy].
    destruct (leb_total x y) as [H|H]; congruence.
Qed.

Lemma sort_by_sorted (l : list A) :
  StronglySorted (fun a b => leb a b = true) (sort_by leb l).
Proof.
  induction l as [|x l IH]; simpl; [constructor | now apply insert_sorted_sorted].
Qed.

(** The first element of a sorted list is one of the elements and precedes
    them all. *)
Lemma sort_by_head (l : list A) (h : A) (t : list A) :
  sort_by leb l = h :: t -> In h l /\ forall z, In z l -> leb h z = true.
Proof.
  intros E. pose proof (sort_by_sorted l) as S. pose proof (sort_by_perm leb l) as P.
  rewrite E in S, P. split.
  - apply (Permutation_in _ P). now left.
  - intros z Hz. apply (Permutation_in _ (Permutation_sym P)) in Hz.
    inversion S as [|? ? _ Hall]; subst.
    destruct Hz as [<-|Hz].
    + destruct (leb_total h h); assumption.
    + rewrite Forall_forall in Hall. now apply Hall.
Qed.

Lemma sort_by_nil (l : list A) : sort_by leb l = [] -> l = [].
Proof.
  intros E. pose proof (sort_by_perm leb l) as P. rewrite E in P.
  now apply Permutation_nil in P.
Qed.

End SortFacts.

Lemma Qge_total (a b : string * Q) :
  Qle_bool (snd b) (snd a) = true \/ Qle_bool (snd a) (snd b) = true.
Proof.
  destruct (Qlt_le_dec (snd a) (snd b)) as [H|H].
  - right. apply Qle_bool_iff. now apply Qlt_le_weak.
  - left. now apply Qle_bool_iff.
Qed.

Lemma Qge_trans (a b c : string * Q) :
  Qle_bool (snd b) (snd a) = true -> Qle_bool (snd c) (snd b) = true ->
  Qle_bool (snd c) (snd a) = true.
Proof.
  rewrite !Qle_bool_iff. intros H1 H2. now apply Qle_trans with (snd b).
Qed.



(** ** Revenue and grouped sums *)

Lemma col_sum_cons (col : Row -> option Q) (r : Row) (l : DataFrame) :
  col_sum col (r :: l)
  = match col r with Some v => (v + col_sum col l)%Q | None => col_sum col l end.
Proof. unfold col_sum. simpl. destruct (col r); reflexivity. Qed.

(** X3. Total revenue is never negative, and it is positive exactly when
    there is at least one successful purchase: every row of the purchase
    subset carries a price above 0. *)
Theorem purchase_revenue_positive (filtered_df : DataFrame) :
  (0 <= col_sum total_price (purchases_of filtered_df))%Q /\
  (purchases_of filtered_df <> [] <-> (0 < col_sum total_price (purchases_of filtered_df))%Q) /\
  (0 <= m_total_sales (pdf_manager_kpis filtered_df (purchases_of filtered_df)))%Q.
Proof.
  assert (P : forall l : DataFrame,
             (forall r, In r l -> successful_sale r = true) ->
             (0 <= col_sum total_price l)%Q /\ (l <> [] -> (0 < col_sum total_price l)%Q)).
  { induction l as [|r l IH]; intros H.
    - split; [apply Qle_refl | congruence].
    - destruct (IH (fun x Hx => H x (or_intror Hx))) as [IH0 _].
      destruct (proj1 (successful_sale_fields r) (H r (or_introl eq_refl)))
        as (p & Hp & Hpos & _).
      rewrite col_sum_cons, Hp. split; [|intros _]; lra. }
  assert (S : forall r, In r (purchases_of filtered_df) -> successful_sale r = true).
  { intros r Hr. apply filter_In in Hr. tauto. }
  destruct (P _ S) as [P0 P1].
  split; [exact P0|]. split; [|exact P0].
  split; [exact P1|].
  intros Hpos E. rewrite E in Hpos. revert Hpos. apply Qlt_irrefl.
Qed.

Lemma Qsum_zeros {A : Type} (l : list A) : (Qsum (map (fun _ => 0%Q) l) == 0)%Q.
Proof. induction l as [|a l IH]; simpl; [reflexivity|]. rewrite IH. ring. Qed.

Lemma Qsum_map_plus {A : Type} (f g : A -> Q) (l : list A) :
  (Qsum (map (fun a => f a + g a) l) == Qsum (map f l) + Qsum (map g l))%Q.
Proof. induction l as [|a l IH]; simpl; [ring|]. rewrite IH. ring. Qed.

Lemma Qsum_map_ext {A : Type} (f g : A -> Q) (l : list A) :
  (forall a, In a l -> (f a == g a)%Q) -> (Qsum (map f l) == Qsum (map g l))%Q.
Proof.
  induction l as [|a l IH]; intros H; simpl; [reflexivity|].
  rewrite (H a (or_introl eq_refl)), IH; [reflexivity|].
  intros x Hx. apply H. now right.
Qed.

(** Summing an amount that is put on one key only. *)
Lemma Qsum_single_key (k0 : string) (v : Q) (ks : list string) :
  NoDup ks -> In k0 ks ->
  (Qsum (map (fun k => if String.eqb k0 k then v else 0) ks) == v)%Q.
Proof.
  induction 1 as [|k ks Hk Hnd IH]; intros Hin; [destruct Hin|]. simpl.
  destruct Hin as [->|Hin].
  - rewrite String.eqb_refl.
    rewrite (Qsum_map_ext _ (fun _ => 0%Q)).
    + rewrite Qsum_zeros. ring.
    + intros a Ha. destruct (String.eqb_spec k0 a) as [<-|_]; [contradiction | reflexivity].
  - destruct (String.eqb_spec k0 k) as [->|_]; [contradiction|].
    rewrite (IH Hin). ring.
Qed.

Lemma in_omit_map {A : Type} (key : Row -> option A) (df : DataFrame) (k : A) :
  In k (omit (map key df)) <-> exists r, In r df /\ key r = Some k.
Proof.
  induction df as [|r df IH]; simpl.
  - split; [intros [] | intros (r & [] & _)].
  - destruct (key r) as [a|] eqn:E; simpl; rewrite IH; split.
    + intros [<-|(x & Hx & Ex)]; [exists r; auto | exists x; auto].
    + intros (x & [<-|Hx] & Ex); [left; congruence | right; exists x; auto].
    + intros (x & Hx & Ex). exists x; auto.
    + intros (x & [<-|Hx] & Ex); [congruence | exists x; auto].
Qed.

Lemma grouped_sums_over_keys (key : Row -> option string) (col : Row -> option Q)
    (ks : list string) (df : DataFrame) :
  NoDup ks ->
  (forall r k, In r df -> key r = Some k -> In k ks) ->
  (Qsum (map (fun k => col_sum col (filter (fun r => str_eq (key r) k) df)) ks)
   == col_sum col (filter (fun r => has_value (key r)) df))%Q.
Proof.
  intros Hnd. induction df as [|r df IH]; intros Hin.
  - simpl. apply (Qsum_zeros ks).
  - assert (IH' := IH (fun x k Hx => Hin x k (or_intror Hx))). clear IH.
    destruct (key r) as [k0|] eqn:E.
    + rewrite (Qsum_map_ext _
        (fun k => (if String.eqb k0 k
                   then match col r with Some v => v | None => 0 end else 0)
                  + col_sum col (filter (fun x => str_eq (key x) k) df))%Q).
      * rewrite Qsum_map_plus, IH', Qsum_single_key;
          [|exact Hnd|apply (Hin r k0 (or_introl eq_refl) E)].
        simpl filter. rewrite E. simpl has_value. cbv iota.
        rewrite col_sum_cons. destruct (col r); [reflexivity | ring].
      * intros k _. simpl filter. rewrite E. unfold str_eq at 1.
        destruct (String.eqb k0 k); [|ring].
        rewrite col_sum_cons. destruct (col r); [reflexivity | ring].
    + simpl filter. rewrite E. simpl has_value. cbv iota.
      rewrite <- IH'. apply Qsum_map_ext. intros k _. unfold str_eq at 1. reflexivity.
Qed.

(** X4. The grouped sums of [groupby(key)[col].sum()] add up to the column
    sum over the rows that have a key: rows with a missing key are left out
    of every group. So the revenue per product (or per channel, per
    salesperson, per country) adds up to the total revenue when no purchase
    lacks the key. *)
Theorem grouped_sums_add_up (key : Row -> option string) (col : Row -> option Q)
    (df : DataFrame) :
  (Qsum (map snd (groupby_sum key col df))
   == col_sum col (filter (fun r => has_value (key r)) df))%Q /\
  ((forall r, In r df -> key r <> None) ->
   (Qsum (map snd (groupby_sum key col df)) == col_sum col df)%Q).
Proof.
  assert (E : (Qsum (map snd (groupby_sum key col df))
               == col_sum col (filter (fun r => has_value (key r)) df))%Q).
  { unfold groupby_sum, groupby. rewrite !map_map. cbn [fst snd].
    unfold group_keys.
    rewrite (Qsum_perm _ _ (Permutation_map _ (sort_by_perm String.leb _))).
    apply grouped_sums_over_keys; [apply NoDup_nodup|].
    intros r k Hr Hk. apply nodup_In. apply in_omit_map. exists r. auto. }
  split; [exact E|].
  intros Hall. rewrite E. rewrite filter_all_true; [reflexivity|].
  intros r Hr. specialize (Hall r Hr). destruct (key r); [reflexivity | congruence].
Qed.

Lemma grouped_sums_add_up_witness :
  let purchases_df := [purchase "Bob" "ProductA" 100; purchase "Alice" "ProductA" 50;
                       purchase "Bob" "ProductB" 30] in
  (Qsum (map snd (groupby_sum product_name total_price purchases_df))
   == col_sum total_price purchases_df)%Q.
Proof.
  cbv zeta.
  apply (proj2 (grouped_sums_add_up product_name total_price
                  [purchase "Bob" "ProductA" 100; purchase "Alice" "ProductA" 50;
                   purchase "Bob" "ProductB" 30])).
  intros r [<-|[<-|[<-|[]]]]; discriminate.
Defined.

Lemma nlargest_head (n : nat) (s : list (string * Q)) :
  match nlargest (S n) s with
  | [] => s = []
  | h :: _ => In h s /\ forall z, In z s -> (snd z <= snd h)%Q
  end.
Proof.
  unfold nlargest.
  destruct (sort_by (fun a b => Qle_bool (snd b) (snd a)) s) as [|h t] eqn:E.
  - simpl. now apply sort_by_nil in E.
  - simpl. destruct (sort_by_head _ Qge_total Qge_trans s h t E) as [Hin Hmax].
    split; [exact Hin|]. intros z Hz. apply Qle_bool_iff. now apply Hmax.
Qed.

Lemma col_sum_positive (l : DataFrame) :
  (forall r, In r l -> successful_sale r = true) -> l <> [] ->
  (0 < col_sum total_price l)%Q.
Proof.
  intros H Hne.
  assert (P : forall l' : DataFrame,
             (forall r, In r l' -> successful_sale r = true) ->
             (0 <= col_sum total_price l')%Q /\ (l' <> [] -> (0 < col_sum total_price l')%Q)).
  { induction l' as [|r l' IH]; intros H'.
    - split; [apply Qle_refl | congruence].
    - destruct (IH (fun x Hx => H' x (or_intror Hx))) as [IH0 _].
      destruct (proj1 (successful_sale_fields r) (H' r (or_introl eq_refl)))
        as (p & Hp & Hpos & _).
      rewrite col_sum_cons, Hp. split; [|intros _]; lra. }
  now apply (P l H).
Qed.

(** On a frame of successful purchases every grouped sum is above 0. *)
Lemma grouped_revenue_positive (key : Row -> option string) (l : DataFrame) (k : string)
    (v : Q) :
  (forall r, In r l -> successful_sale r = true) ->
  In (k, v) (groupby_sum key total_price l) -> (0 < v)%Q.
Proof.
  intros H Hkv.
  assert (Hk : In k (map fst (groupby_sum key total_price l)))
    by (apply in_map_iff; exists (k, v); auto).
  unfold groupby_sum, groupby in Hkv, Hk. rewrite map_map in Hkv, Hk.
  apply in_map_iff in Hkv. destruct Hkv as (k' & E & Hk'). cbn [fst snd] in E.
  injection E as -> <-.
  apply col_sum_positive.
  - intros r Hr. apply filter_In in Hr. apply H. tauto.
  - unfold group_keys in Hk'.
    apply (Permutation_in _ (sort_by_perm String.leb _)) in Hk'.
    apply nodup_In, in_omit_map in Hk'. destruct Hk' as (r & Hr & Ek).
    intros Hnil.
    assert (Hf : In r (filter (fun x => str_eq (key x) k) l)).
    { apply filter_In. split; [exact Hr|]. rewrite Ek. apply String.eqb_refl. }
    rewrite Hnil in Hf. destruct Hf.
Qed.

Lemma groupby_sum_nil_iff (key : Row -> option string) (col : Row -> option Q)
    (df : DataFrame) :
  groupby_sum key col df = [] <-> forall r, In r df -> key r = None.
Proof.
  assert (K : forall k, In k (map fst (groupby_sum key col df)) <->
                        exists r, In r df /\ key r = Some k).
  { intros k. unfold groupby_sum, groupby. rewrite !map_map. cbn [fst]. rewrite map_id.
    unfold group_keys. rewrite <- in_omit_map. split; intros H.
    - apply (Permutation_in _ (sort_by_perm String.leb _)) in H. now apply nodup_In in H.
    - apply (Permutation_in _ (Permutation_sym (sort_by_perm String.leb _))).
      now apply nodup_In. }
  split.
  - intros E r Hr. destruct (key r) as [k|] eqn:Ek; [|reflexivity].
    assert (Hk : In k (map fst (groupby_sum key col df))) by (apply K; exists r; auto).
    rewrite E in Hk. destruct Hk.
  - intros Hnone. destruct (groupby_sum key col df) as [|[k v] l] eqn:E; [reflexivity|].
    assert (Hk : In k (map fst ((k, v) :: l))) by now left.
    apply K in Hk. destruct Hk as (r & Hr & Ek). rewrite (Hnone r Hr) in Ek. discriminate.
Qed.

(** X5. The "Top Product" of the manager KPIs (PDF and live) and the "Top
    Product Sold" of the salesperson KPIs is a product of the purchase
    subset whose summed revenue is the greatest: no product has a larger
    sum. When no purchase carries a product name it is "N/A" with 0; and on
    a purchase subset, where every price is above 0, an amount of 0 is shown
    only then. *)
Theorem top_product_has_greatest_revenue (filtered_df purchases_df : DataFrame)
    (sp : option string) (s e : Z) (target : Q) :
  let by_product := groupby_sum product_name total_price purchases_df in
  let pdf := pdf_manager_kpis filtered_df purchases_df in
  let live := live_manager_kpis filtered_df purchases_df in
  let person := salesperson_dashboard filtered_df sp s e target in
  let person_purchases := live_person_purchases filtered_df sp s e in
  let person_by_product := groupby_sum product_name total_price person_purchases in
  (forall n v, In (n, v) by_product -> (v <= m_top_product_sales pdf)%Q) /\
  (by_product <> [] -> In (m_top_product pdf, m_top_product_sales pdf) by_product) /\
  (by_product = [] -> m_top_product pdf = "N/A" /\ m_top_product_sales pdf = 0%Q) /\
  live = pdf /\
  (forall n v, In (n, v) person_by_product -> (v <= s_top_product_sales person)%Q) /\
  (person_by_product <> [] ->
   In (s_top_product person, s_top_product_sales person) person_by_product) /\
  (person_by_product = [] ->
   s_top_product person = "N/A" /\ s_top_product_sales person = 0%Q) /\
  (by_product = [] <-> forall r, In r purchases_df -> product_name r = None) /\
  (person_by_product = [] <-> forall r, In r person_purchases -> product_name r = None) /\
  ((forall r, In r purchases_df -> successful_sale r = true) ->
   (m_top_product_sales pdf == 0)%Q -> by_product = []) /\
  ((s_top_product_sales person == 0)%Q -> person_by_product = []).
Proof.
  intros by_product pdf live person person_purchases person_by_product.
  assert (M : forall (k : nat) (bp : list (string * Q)),
     let top := nlargest (S k) bp in
     let name := if negb (is_empty top) then first_key top else "N/A" in
     let amount := if negb (is_empty top) then first_value top else 0%Q in
     (forall n v, In (n, v) bp -> (v <= amount)%Q) /\
     (bp <> [] -> In (name, amount) bp) /\
     (bp = [] -> name = "N/A" /\ amount = 0%Q)).
  { intros k bp. pose proof (nlargest_head k bp) as H. cbv zeta.
    destruct (nlargest (S k) bp) as [|[hn hv] t].
    - subst bp. simpl. split; [intros n v []|]. split; [congruence | auto].
    - destruct H as [Hin Hmax]. simpl. split; [|split].
      + intros n v Hnv. apply (Hmax (n, v) Hnv).
      + intros _. exact Hin.
      + intros ->. destruct Hin. }
  destruct (M 4%nat by_product) as (M1 & M2 & M3).
  destruct (M 0%nat person_by_product) as (P1 & P2 & P3).
  pose proof (groupby_sum_nil_iff product_name total_price purchases_df) as Em.
  pose proof (groupby_sum_nil_iff product_name total_price person_purchases) as Ep.
  assert (Z0 : forall (l : DataFrame) (amount : Q) (name : string),
             (forall r, In r l -> successful_sale r = true) ->
             (groupby_sum product_name total_price l <> [] ->
              In (name, amount) (groupby_sum product_name total_price l)) ->
             (amount == 0)%Q -> groupby_sum product_name total_price l = []).
  { intros l amount name Hl Hin Hz.
    destruct (groupby_sum product_name total_price l) as [|x bp] eqn:E; [reflexivity|].
    exfalso. specialize (Hin ltac:(discriminate)). rewrite <- E in Hin.
    pose proof (grouped_revenue_positive product_name l name amount Hl Hin). lra. }
  split; [exact M1|]. split; [exact M2|]. split; [exact M3|].
  split; [symmetry; apply manager_kpis_agree|]. split; [exact P1|]. split; [exact P2|].
  split; [exact P3|]. split; [exact Em|]. split; [exact Ep|]. split.
  - intros Hl Hz. apply (Z0 purchases_df _ _ Hl M2 Hz).
  - intros Hz. apply (Z0 person_purchases _ _ (fun r Hr => proj2 (proj1 (filter_In _ _ _) Hr))
                         P2 Hz).
Qed.

Lemma top_product_has_greatest_revenue_witness :
  let purchases_df := [purchase "Bob" "ProductB" 30; purchase "Alice" "ProductA" 100;
                       purchase "Bob" "ProductA" 50] in
  In (m_top_product (pdf_manager_kpis purchases_df purchases_df),
      m_top_product_sales (pdf_manager_kpis purchases_df purchases_df))
     (groupby_sum product_name total_price purchases_df) /\
  m_top_product (pdf_manager_kpis purchases_df purchases_df) = "ProductA".
Proof.
  cbv zeta. split; [|reflexivity].
  apply (proj1 (proj2 (top_product_has_greatest_revenue
           [purchase "Bob" "ProductB" 30; purchase "Alice" "ProductA" 100;
            purchase "Bob" "ProductA" 50]
           [purchase "Bob" "ProductB" 30; purchase "Alice" "ProductA" 100;
            purchase "Bob" "ProductA" 50] None 0 0 1000))).
  vm_compute. discriminate.
Defined.

(** ** Group keys and select boxes *)

Lemma group_keys_facts (key : Row -> option string) (df : DataFrame) :
  NoDup (group_keys key df) /\
  StronglySorted (fun a b => String.leb a b = true) (group_keys key df) /\
  (forall k, In k (group_keys key df) <-> exists r, In r df /\ key r = Some k).
Proof.
  unfold group_keys. split; [|split].
  - apply (Permutation_NoDup (Permutation_sym (sort_by_perm String.leb _))).
    apply NoDup_nodup.
  - apply sort_by_sorted; [apply String.leb_total | apply string_leb_trans].
  - intros k. rewrite <- in_omit_map. split; intros H.
    + apply (Permutation_in _ (sort_by_perm String.leb _)) in H.
      now apply nodup_In in H.
    + apply (Permutation_in _ (Permutation_sym (sort_by_perm String.leb _))).
      now apply nodup_In.
Qed.

(** X6. A grouped sum has one entry per distinct key value present in the
    frame, in ascending order of the key and without repetition, and the
    entry of a key is the column sum over the rows with that key; so each
    product, channel, salesperson or country is one bar or slice of its
    chart. *)
Theorem groupby_sum_entries (key : Row -> option string) (col : Row -> option Q)
    (df : DataFrame) :
  NoDup (map fst (groupby_sum key col df)) /\
  StronglySorted (fun a b => String.leb a b = true) (map fst (groupby_sum key col df)) /\
  (forall k, In k (map fst (groupby_sum key col df)) <-> exists r, In r df /\ key r = Some k) /\
  (forall k v, In (k, v) (groupby_sum key col df) ->
               v = col_sum col (filter (fun r => str_eq (key r) k) df)) /\
  (groupby_sum key col df = [] <-> forall r, In r df -> key r = None).
Proof.
  assert (K : map fst (groupby_sum key col df) = group_keys key df).
  { unfold groupby_sum, groupby. rewrite !map_map. cbn [fst]. apply map_id. }
  destruct (group_keys_facts key df) as (Hnd & Hs & Hin).
  rewrite K. split; [exact Hnd|]. split; [exact Hs|]. split; [exact Hin|]. split.
  - intros k v Hkv. unfold groupby_sum, groupby in Hkv. rewrite map_map in Hkv.
    apply in_map_iff in Hkv. destruct Hkv as (k' & E & _). cbn [fst snd] in E.
    now injection E as <- <-.
  - split.
    + intros E r Hr. destruct (key r) as [k|] eqn:Ek; [|reflexivity].
      assert (Hk : In k (group_keys key df)) by (apply Hin; exists r; auto).
      rewrite <- K, E in Hk. destruct Hk.
    + intros Hnone. destruct (groupby_sum key col df) as [|[k v] l] eqn:E; [reflexivity|].
      assert (Hk : In k (group_keys key df)) by (rewrite <- K; now left).
      apply Hin in Hk. destruct Hk as (r & Hr & Ek). rewrite (Hnone r Hr) in Ek. discriminate.
Qed.

(** X7. A select box of the sidebar offers "All" first, then the distinct
    values of the column in ascending order, each once; and choosing any
    offered value that occurs in the column keeps at least one row of the
    frame. *)
Theorem select_options_facts (col : Row -> option string) (df : DataFrame) :
  hd_error (select_options col df) = Some "All" /\
  NoDup (tl (select_options col df)) /\
  StronglySorted (fun a b => String.leb a b = true) (tl (select_options col df)) /\
  (forall v, In v (tl (select_options col df)) <-> exists r, In r df /\ col r = Some v) /\
  (forall v, In v (tl (select_options col df)) ->
             filter (fun r => str_eq (col r) v) df <> []).
Proof.
  change (tl (select_options col df)) with (group_keys col df).
  destruct (group_keys_facts col df) as (Hnd & Hs & Hin).
  split; [reflexivity|]. split; [exact Hnd|]. split; [exact Hs|]. split; [exact Hin|].
  intros v Hv. apply Hin in Hv. destruct Hv as (r & Hr & E).
  intros Hnil.
  assert (Hf : In r (filter (fun x => str_eq (col x) v) df)).
  { apply filter_In. split; [exact Hr|]. rewrite E. apply String.eqb_refl. }
  rewrite Hnil in Hf. destruct Hf.
Qed.

Lemma select_options_facts_witness :
  filter (fun r => str_eq (country r) "Botswana")
         [purchase "Alice" "ProductA" 10; purchase "Bob" "ProductB" 100] <> [].
Proof.
  apply (proj2 (proj2 (proj2 (proj2 (select_options_facts country
           [purchase "Alice" "ProductA" 10; purchase "Bob" "ProductB" 100]))))).
  vm_compute. left. reflexivity.
Defined.

(** ** Salesperson KPIs *)

Lemma filter_length_le {A : Type} (f : A -> bool) (l : list A) :
  (List.length (filter f l) <= List.length l)%nat.
Proof.
  induction l as [|a l IH]; simpl; [lia|]. destruct (f a); simpl; lia.
Qed.

Lemma conversion_rate_bounds (n t : nat) :
  (n <= t)%nat -> (0 <= conversion_rate n t)%Q /\ (conversion_rate n t <= 100)%Q.
Proof.
  intros Hle. unfold conversion_rate.
  destruct (0 <? t)%nat eqn:E; [|split; lra].
  apply Nat.ltb_lt in E.
  assert (Ht : (0 < Qnat t)%Q).
  { unfold Qnat, Qlt. simpl. lia. }
  assert (Hn : (0 <= Qnat n)%Q).
  { unfold Qnat, Qle. simpl. lia. }
  assert (Hnt : (Qnat n <= Qnat t)%Q).
  { unfold Qnat, Qle. simpl. lia. }
  assert (H0 : (0 <= Qnat n / Qnat t)%Q).
  { apply Qle_shift_div_l; [exact Ht|]. lra. }
  assert (H1 : (Qnat n / Qnat t <= 1)%Q).
  { apply Qle_shift_div_r; [exact Ht|]. lra. }
  split; lra.
Qed.

(** X8. For every frame handed to the salesperson views, the number of
    sales never exceeds the number of events, and the conversion rate is a
    percentage between 0 and 100, in the live view and in the PDF. *)
Theorem conversion_rate_is_a_percentage (df : DataFrame) (sp : option string) (s e : Z)
    (target : Q) :
  let live := salesperson_dashboard df sp s e target in
  let pdf := pdf_salesperson_kpis df sp s e target in
  (s_number_of_sales live <= List.length (live_person_df df sp s e))%nat /\
  (List.length (live_person_df df sp s e) <= List.length df)%nat /\
  (0 <= s_conversion_rate live)%Q /\ (s_conversion_rate live <= 100)%Q /\
  (0 <= s_conversion_rate pdf)%Q /\ (s_conversion_rate pdf <= 100)%Q.
Proof.
  cbv zeta.
  assert (Hs : (List.length (live_person_purchases df sp s e)
                <= List.length (live_person_df df sp s e))%nat)
    by apply filter_length_le.
  assert (Hp : (List.length (pdf_person_purchases df sp s e)
                <= List.length (pdf_person_df df sp s e))%nat)
    by apply filter_length_le.
  destruct (conversion_rate_in_kpis df sp s e target) as [El Ep].
  rewrite El, Ep.
  destruct (conversion_rate_bounds _ _ Hs) as [L0 L1].
  destruct (conversion_rate_bounds _ _ Hp) as [P0 P1].
  split; [exact Hs|]. split.
  - unfold live_person_df. destruct (salesperson_selected sp).
    + etransitivity; [apply filter_length_le | apply filter_length_le].
    + apply filter_length_le.
  - repeat split; assumption.
Qed.

Lemma gauge_color_cases (r t : Q) :
  ((t <= r)%Q /\ gauge_color_exact r t = "green") \/
  ((r < t)%Q /\ (t * (9 # 10) <= r)%Q /\ gauge_color_exact r t = "magenta") \/
  ((r < t)%Q /\ (r < t * (9 # 10))%Q /\ gauge_color_exact r t = "red").
Proof.
  unfold gauge_color_exact.
  destruct (Qle_bool t r) eqn:E1.
  - left. split; [now apply Qle_bool_iff | reflexivity].
  - apply Qle_bool_false in E1. right.
    destruct (Qle_bool (t * (9 # 10)) r) eqn:E2.
    + left. split; [exact E1|]. split; [now apply Qle_bool_iff | reflexivity].
    + right. split; [exact E1|]. split; [now apply Qle_bool_false | reflexivity].
Qed.

(** X9. The gauge colour never gets worse when the revenue grows, and
    never gets better when the target grows (red below magenta below
    green). *)
Theorem gauge_color_monotone (r1 r2 t1 t2 : Q) :
  ((r1 <= r2)%Q ->
   (colour_rank (gauge_color_exact r1 t1) <= colour_rank (gauge_color_exact r2 t1))%nat) /\
  ((t1 <= t2)%Q ->
   (colour_rank (gauge_color_exact r1 t2) <= colour_rank (gauge_color_exact r1 t1))%nat).
Proof.
  split; intros H.
  - destruct (gauge_color_cases r1 t1) as [(A1 & ->)|[(A1 & A2 & ->)|(A1 & A2 & ->)]];
      destruct (gauge_color_cases r2 t1) as [(B1 & ->)|[(B1 & B2 & ->)|(B1 & B2 & ->)]];
      vm_compute; try lia; exfalso; lra.
  - destruct (gauge_color_cases r1 t2) as [(A1 & ->)|[(A1 & A2 & ->)|(A1 & A2 & ->)]];
      destruct (gauge_color_cases r1 t1) as [(B1 & ->)|[(B1 & B2 & ->)|(B1 & B2 & ->)]];
      vm_compute; try lia; exfalso; lra.
Qed.

Lemma gauge_color_monotone_witness :
  (colour_rank (gauge_color_exact 500 1000) <= colour_rank (gauge_color_exact 950 1000))%nat /\
  (colour_rank (gauge_color_exact 950 1000) <= colour_rank (gauge_color_exact 950 900))%nat.
Proof.
  split.
  - apply (proj1 (gauge_color_monotone 500 950 1000 1000)). discriminate.
  - apply (proj2 (gauge_color_monotone 950 950 900 1000)). discriminate.
Defined.




(** ** Marketer KPIs *)






Lemma in_omit {A : Type} (l : list (option A)) (a : A) : In a (omit l) <-> In (Some a) l.
Proof.
  induction l as [|[x|] l IH]; simpl; [tauto| |].
  - rewrite IH. split; intros [H|H]; auto; left; congruence.
  - rewrite IH. split; [auto | intros [H|H]; [discriminate | exact H]].
Qed.

Lemma existsb_over_map {A B : Type} (f : B -> bool) (g : A -> B) (l : list A) :
  existsb f (map g l) = existsb (fun x => f (g x)) l.
Proof. induction l as [|a l IH]; simpl; [reflexivity | now rewrite IH]. Qed.

Lemma nodup_with_missing (l : list (option string)) :
  List.length (nodup option_string_dec l)
  = (List.length (nodup string_dec (omit l))
     + (if existsb (fun c => negb (has_value c)) l then 1 else 0))%nat.
Proof.
  induction l as [|[a|] l IH].
  - reflexivity.
  - cbn [omit existsb has_value negb orb nodup].
    destruct (in_dec option_string_dec (Some a) l) as [H|H];
      destruct (in_dec string_dec a (omit l)) as [H'|H'];
      try (exfalso; apply in_omit in H'; contradiction);
      try (exfalso; apply H'; apply in_omit; exact H).
    + exact IH.
    + simpl. now rewrite IH.
  - cbn [omit existsb has_value negb orb nodup].
    destruct (in_dec option_string_dec None l) as [H|H].
    + rewrite IH.
      replace (existsb (fun c => negb (has_value c)) l) with true; [reflexivity|].
      symmetry. apply existsb_exists. exists None. split; [exact H | reflexivity].
    + simpl. rewrite IH.
      replace (existsb (fun c => negb (has_value c)) l) with false; [lia|].
      symmetry. destruct (existsb _ l) eqn:E; [|reflexivity].
      apply existsb_exists in E. destruct E as ([x|] & Hx & Ex); [discriminate|contradiction].
Qed.

(** X12. "Total Visits" is the number of distinct session ids, plus one
    if some row has no session id (the missing value counts as a session);
    it never exceeds "Total Log Requests", the number of rows, and it is 0
    only for the empty working subset. *)
Theorem total_visits_counts_sessions (df : DataFrame) (k : MarketerKPI) :
  live_marketer_kpis df = Ok k \/ pdf_marketer_kpis df = Ok k ->
  k_total_visits k
  = (List.length (distinct_sessions df)
     + (if existsb (fun r => negb (has_value (session_id r))) df then 1 else 0))%nat /\
  k_total_log_requests k = List.length df /\
  (k_total_visits k <= k_total_log_requests k)%nat /\
  (k_total_visits k = 0%nat <-> df = []).
Proof.
  intros H.
  assert (E : k_total_visits k = n_unique session_id df /\
              k_total_log_requests k = List.length df).
  { destruct H as [H|H]; [unfold live_marketer_kpis in H | unfold pdf_marketer_kpis in H];
      cbv zeta in H;
      destruct (if negb (is_empty (map (fun r => hour_of (timestamp r)) df)) then _ else _);
      try discriminate; injection H as <-; split; reflexivity. }
  destruct E as [E1 E2]. rewrite E1, E2. unfold n_unique.
  split; [|split; [|split]].
  - rewrite nodup_with_missing. unfold distinct_sessions. f_equal.
    rewrite existsb_over_map. reflexivity.
  - reflexivity.
  - rewrite <- (length_map session_id df).
    apply NoDup_incl_length; [apply NoDup_nodup|].
    intros x Hx. now apply nodup_In in Hx.
  - split.
    + intros Hz. destruct df as [|r df]; [reflexivity|]. exfalso.
      assert (Hin : In (session_id r) (nodup option_string_dec (map session_id (r :: df))))
        by (apply nodup_In; now left).
      destruct (nodup option_string_dec (map session_id (r :: df))); [destruct Hin | discriminate].
    + intros ->. reflexivity.
Qed.

Lemma total_visits_counts_sessions_witness :
  exists k,
    live_marketer_kpis [visit "a" 10 (Some 0); visit "a" 20 (Some 0); visit "b" 60 (Some 0)]
    = Ok k /\ k_total_visits k = 2%nat /\ (k_total_visits k <= k_total_log_requests k)%nat.
Proof.
  eexists. split; [reflexivity|].
  destruct (total_visits_counts_sessions
              [visit "a" 10 (Some 0); visit "a" 20 (Some 0); visit "b" 60 (Some 0)]
              _ (or_introl eq_refl)) as (H1 & _ & H3 & _).
  split; [exact H1 | exact H3].
Defined.

Lemma average_none (l : list Q) : average l = None <-> l = [].
Proof. destruct l; simpl; split; intros H; congruence. Qed.

Lemma omit_nil {A : Type} (l : list (option A)) :
  omit l = [] <-> forall x, In x l -> x = None.
Proof.
  induction l as [|[a|] l IH]; simpl.
  - split; [intros _ x [] | reflexivity].
  - split; [discriminate|]. intros H. specialize (H (Some a) (or_introl eq_refl)). discriminate.
  - rewrite IH. split; intros H x; [intros [<-|Hx]; auto | intros Hx; apply H; now right].
Qed.

Lemma session_mean_none (df : DataFrame) (k : string) :
  session_mean df k = None <->
  forall r, In r df -> session_id r = Some k -> response_time_ms r = None.
Proof.
  unfold session_mean. rewrite average_none, omit_nil. split.
  - intros H r Hr Hk. apply H. apply in_map. apply filter_In. split; [exact Hr|].
    rewrite Hk. apply String.eqb_refl.
  - intros H x Hx. apply in_map_iff in Hx. destruct Hx as (r & <- & Hr).
    apply filter_In in Hr. destruct Hr as [Hr Hk]. apply (H r Hr).
    unfold str_eq in Hk. destruct (session_id r) as [s|]; [|discriminate].
    apply String.eqb_eq in Hk. now subst.
Qed.

(** X13. The average session length is NaN exactly for a non-empty working
    subset in which no row has both a session id and a response time; in
    every other case it is a number (0 for the empty subset). *)
Theorem avg_session_length_nan (df : DataFrame) :
  avg_session_length df = None <->
  df <> [] /\ forall r, In r df -> session_id r = None \/ response_time_ms r = None.
Proof.
  destruct df as [|r0 df].
  - simpl. split; [discriminate | intros [H _]; congruence].
  - rewrite avg_session_length_by_keys, average_none, omit_nil.
    destruct (group_keys_facts session_id (r0 :: df)) as (_ & _ & Hin).
    split.
    + intros H. split; [discriminate|]. intros r Hr.
      destruct (session_id r) as [k|] eqn:Ek; [right | now left].
      assert (Hk : In k (group_keys session_id (r0 :: df))) by (apply Hin; exists r; auto).
      specialize (H _ (in_map (session_mean (r0 :: df)) _ _ Hk)).
      apply (proj1 (session_mean_none _ _) H r Hr Ek).
    + intros [_ H] x Hx. apply in_map_iff in Hx. destruct Hx as (k & <- & _).
      apply session_mean_none. intros r Hr Ek.
      destruct (H r Hr) as [E|E]; [congruence | exact E].
Qed.

(** ** Age groups in the chart *)

Lemma col_sum_masked (col : Row -> option Q) (f g : Row -> bool) (df : DataFrame) :
  col_sum col (filter (fun r => f r && g r) df)
  = col_sum (fun r => if g r then col r else None) (filter f df).
Proof.
  induction df as [|r df IH]; [reflexivity|]. simpl.
  destruct (f r); simpl; [|exact IH].
  destruct (g r) eqn:G; rewrite !col_sum_cons, ?G, IH; reflexivity.
Qed.

Lemma age_group_in_labels (r : Row) (l : string) : age_group r = Some l -> In l age_labels.
Proof.
  unfold age_group, pd_cut. destruct (customer_age r) as [a|]; [|discriminate].
  cbv zeta. destruct (_ || _); [discriminate|]. apply nth_error_In.
Qed.

(** X14. For every product, the five bars of "Product Sales by Age" add up
    to the revenue of that product from purchases whose customer age lies
    in [0, 100]: a purchase without age, or with an age above 100, is in no
    bar. *)
Theorem age_chart_adds_up (purchases_df : DataFrame) (product : string) :
  (Qsum (map (fun label => sales_by_age_product purchases_df label product) age_labels)
   == col_sum total_price
        (filter (fun r => has_value (age_group r) && str_eq (product_name r) product)
                purchases_df))%Q /\
  (forall r a, customer_age r = Some a ->
               (has_value (age_group r) = true <-> (0 <= a)%Q /\ (a <= 100)%Q)) /\
  (forall r, customer_age r = None -> has_value (age_group r) = false).
Proof.
  split; [|split].
  - unfold sales_by_age_product.
    rewrite (Qsum_map_ext _
      (fun label => col_sum (fun r => if str_eq (product_name r) product
                                      then total_price r else None)
                      (filter (fun r => str_eq (age_group r) label) purchases_df))).
    + rewrite (grouped_sums_over_keys age_group).
      * rewrite <- col_sum_masked. reflexivity.
      * unfold age_labels. repeat constructor; simpl; intuition discriminate.
      * intros r k _. apply age_group_in_labels.
    + intros label _. rewrite col_sum_masked. reflexivity.
  - intros r a Ha. destruct (age_group_by_edges r a Ha) as (G0 & G1 & G2 & G3 & G4 & G5 & G6).
    split.
    + intros Hv.
      destruct (Qlt_le_dec a 0) as [L|L]; [rewrite (G6 L) in Hv; discriminate|].
      destruct (Qlt_le_dec 100 a) as [U|U]; [rewrite (G5 U) in Hv; discriminate|].
      split; assumption.
    + intros [L U].
      destruct (Qlt_le_dec 20 a) as [L20|L20]; [|now rewrite G0].
      destruct (Qlt_le_dec 30 a) as [L30|L30]; [|now rewrite G1].
      destruct (Qlt_le_dec 40 a) as [L40|L40]; [|now rewrite G2].
      destruct (Qlt_le_dec 50 a) as [L50|L50]; [|now rewrite G3].
      now rewrite G4.
  - intros r Ha. unfold age_group, pd_cut. now rewrite Ha.
Qed.

(** ** The loader *)

Lemma filter_nil_iff {A : Type} (f : A -> bool) (l : list A) :
  filter f l = [] <-> forall x, In x l -> f x = false.
Proof.
  split; [|apply filter_all_false].
  intros E x Hx. destruct (f x) eqn:Fx; [|reflexivity].
  assert (H : In x (filter f l)) by (apply filter_In; auto).
  rewrite E in H. destruct H.
Qed.

Lemma existsb_false_iff {A : Type} (f : A -> bool) (l : list A) :
  existsb f l = false <-> forall x, In x l -> f x = false.
Proof.
  split.
  - intros E x Hx. destruct (f x) eqn:Fx; [|reflexivity].
    assert (H : existsb f l = true) by (apply existsb_exists; eauto). congruence.
  - intros H. destruct (existsb f l) eqn:E; [|reflexivity].
    apply existsb_exists in E. destruct E as (x & Hx & Fx). rewrite (H x Hx) in Fx. discriminate.
Qed.

Lemma nodup_length_le {A : Type} (dec : forall a b : A, {a = b} + {a <> b}) (l : list A) :
  (List.length (nodup dec l) <= List.length l)%nat.
Proof.
  apply NoDup_incl_length; [apply NoDup_nodup|]. intros x Hx. now apply nodup_In in Hx.
Qed.

Lemma nodup_length_NoDup {A : Type} (dec : forall a b : A, {a = b} + {a <> b}) (l : list A) :
  List.length (nodup dec l) = List.length l <-> NoDup l.
Proof.
  split; [|intros H; now rewrite nodup_fixed_point].
  induction l as [|x l IH]; intros E; [constructor|]. simpl in E.
  destruct (in_dec dec x l) as [Hin|Hin].
  - pose proof (nodup_length_le dec l). lia.
  - simpl in E. constructor; [exact Hin | apply IH; lia].
Qed.

Lemma num_lt_false (c : option Q) (q : Q) :
  num_lt c q = false <-> forall v, c = Some v -> (q <= v)%Q.
Proof.
  unfold num_lt. destruct c as [v|].
  - rewrite Qltb_false. split; [intros H v' E; now injection E as <- | intros H; now apply H].
  - split; [intros _ v E; discriminate | reflexivity].
Qed.

Lemma num_gt_false (c : option Q) (q : Q) :
  num_gt c q = false <-> forall v, c = Some v -> (v <= q)%Q.
Proof.
  unfold num_gt. destruct c as [v|].
  - rewrite Qltb_false. split; [intros H v' E; now injection E as <- | intros H; now apply H].
  - split; [intros _ v E; discriminate | reflexivity].
Qed.

(** [load_data] on a table whose cells have the types of their columns. *)
Lemma load_data_typed_succeeds_iff (file : option CsvTable) (t : CsvTable) :
  ((exists warnings, load_data file = Loaded t warnings) <-> file = Some t /\ loadable t) /\
  (forall warnings, load_data file = Loaded t warnings ->
     (warnings = [] <-> NoDup (map session_id (rows t))) /\
     (warnings <> [] ->
      warnings = ["Duplicate session IDs detected. Consider cleaning the dataset."])).
Proof.
  assert (R : forall t', read_csv (Some t') ["sale_date"; "timestamp"] = Ok t' \/
                         has_column (columns t') "sale_date" = false \/
                         has_column (columns t') "timestamp" = false).
  { intros t'. destruct (has_column (columns t') "sale_date") eqn:Hs;
      [|right; left; reflexivity].
    destruct (has_column (columns t') "timestamp") eqn:Ht; [|right; right; reflexivity].
    left. now apply read_csv_dates_present. }
  assert (Rk : forall t' x, read_csv (Some t') ["sale_date"; "timestamp"] = Ok x ->
                 x = t' /\ has_column (columns t') "sale_date" = true /\
                 has_column (columns t') "timestamp" = true).
  { intros t' x. unfold read_csv. cbn [filter].
    destruct (has_column (columns t') "sale_date"), (has_column (columns t') "timestamp");
      cbn [negb is_empty]; intros H; try discriminate.
    injection H as <-. auto. }
  assert (S : forall ws, load_data file = Loaded t ws ->
     file = Some t /\
     has_column (columns t) "timestamp" = true /\
     filter (fun col => negb (has_column (columns t) col)) required_columns = [] /\
     existsb (fun r => num_lt (total_price r) 0%Q) (rows t) = false /\
     existsb (fun r => num_lt (customer_age r) 0%Q) (rows t) = false /\
     existsb (fun r => num_gt (customer_age r) 120%Q) (rows t) = false /\
     ws = (if duplicated_any session_id (rows t)
           then ["Duplicate session IDs detected. Consider cleaning the dataset."]
           else [])).
  { intros ws. unfold load_data. destruct file as [t'|]; [|discriminate].
    destruct (read_csv (Some t') ["sale_date"; "timestamp"]) as [x|e] eqn:E;
      [|destruct e; discriminate].
    destruct (Rk t' x E) as (-> & _ & Hts).
    destruct (filter (fun col => negb (has_column (columns t') col)) required_columns)
      as [|c l] eqn:Em; cbn [is_empty negb]; [|discriminate].
    destruct (existsb (fun r => num_lt (total_price r) 0%Q) (rows t')) eqn:E1; [discriminate|].
    destruct (existsb (fun r => num_lt (customer_age r) 0%Q) (rows t')) eqn:E2;
      [discriminate|].
    destruct (existsb (fun r => num_gt (customer_age r) 120%Q) (rows t')) eqn:E3;
      [discriminate|].
    cbn [orb]. intros H. injection H as <- <-.
    rewrite Em, E1, E2, E3. repeat split; auto. }
  split; [split|].
  - intros (ws & H). destruct (S ws H) as (Hf & Hts & Hm & H1 & H2 & H3 & _).
    split; [exact Hf|]. split; [exact Hts|]. split; [|split].
    + intros col Hc. apply (proj1 (filter_nil_iff _ _) Hm) in Hc.
      now apply negb_false_iff in Hc.
    + intros r p Hr Hp. apply (proj1 (existsb_false_iff _ _) H1) in Hr.
      apply (proj1 (num_lt_false _ _) Hr p Hp).
    + intros r a Hr Ha. split.
      * apply (proj1 (existsb_false_iff _ _) H2) in Hr. apply (proj1 (num_lt_false _ _) Hr a Ha).
      * apply (proj1 (existsb_false_iff _ _) H3) in Hr. apply (proj1 (num_gt_false _ _) Hr a Ha).
  - intros (-> & Hts & Hreq & Hp & Ha).
    assert (Hsd : has_column (columns t) "sale_date" = true) by (apply Hreq; now left).
    unfold load_data. rewrite (read_csv_dates_present t Hsd Hts).
    rewrite (proj2 (filter_nil_iff _ _)); cbn [is_empty negb].
    + rewrite (proj2 (existsb_false_iff (fun r => num_lt (total_price r) 0%Q) _)).
      * rewrite (proj2 (existsb_false_iff (fun r => num_lt (customer_age r) 0%Q) _)).
        -- rewrite (proj2 (existsb_false_iff (fun r => num_gt (customer_age r) 120%Q) _)).
           ++ cbn [orb]. eexists. reflexivity.
           ++ intros r Hr. apply num_gt_false. intros a E. apply (Ha r a Hr E).
        -- intros r Hr. apply num_lt_false. intros a E. apply (Ha r a Hr E).
      * intros r Hr. apply num_lt_false. intros p E. apply (Hp r p Hr E).
    + intros col Hc. apply negb_false_iff. now apply Hreq.
  - intros ws H. destruct (S ws H) as (_ & _ & _ & _ & _ & _ & ->).
    unfold duplicated_any, n_unique.
    rewrite <- (nodup_length_NoDup option_string_dec), length_map.
    destruct (Nat.eqb_spec (List.length (nodup option_string_dec (map session_id (rows t))))
                           (List.length (rows t))) as [E|E]; cbn [negb].
    + split; [tauto | congruence].
    + split; [split; [discriminate | intros; contradiction] | reflexivity].
Qed.

Lemma load_data_file_typed (t : CsvTable) :
  load_data_file (Table t true true) = load_data (Some t).
Proof. reflexivity. Qed.

Lemma load_data_file_not_numeric (t : CsvTable) (pn an : bool) :
  pn && an = false -> exists error, load_data_file (Table t pn an) = Stopped error.
Proof.
  intros H. unfold load_data_file.
  destruct (read_csv (Some t) ["sale_date"; "timestamp"]) as [df|e];
    [|destruct e; eexists; reflexivity].
  cbv zeta.
  destruct (negb (is_empty _)); [eexists; reflexivity|].
  destruct pn; cbn [negb]; [|eexists; reflexivity].
  destruct (existsb (fun r => num_lt (total_price r) 0%Q) (rows df)); [eexists; reflexivity|].
  destruct an; [discriminate|]. cbn [negb]. eexists; reflexivity.
Qed.

(** X15. [load_data] returns a table exactly when the file exists and is
    parsed, its [total_price] and [customer_age] columns are numeric, its
    header has the [timestamp] column and every required column, no price is
    negative and every age lies in [0, 120] (missing prices and ages pass);
    the table returned is the file's, and the only effect of repeated
    session ids is one warning, shown exactly when some session id (or the
    missing value) occurs twice. An absent or malformed file, a text cell in
    a price or age column: each stops the script with one message. *)
Theorem load_data_succeeds_iff (file : csv_file) (t : CsvTable) :
  ((exists warnings, load_data_file file = Loaded t warnings) <->
   file = Table t true true /\ loadable t) /\
  (forall warnings, load_data_file file = Loaded t warnings ->
     (warnings = [] <-> NoDup (map session_id (rows t))) /\
     (warnings <> [] ->
      warnings = ["Duplicate session IDs detected. Consider cleaning the dataset."])) /\
  ((forall u, file <> Table u true true) ->
   exists error, load_data_file file = Stopped error).
Proof.
  assert (T : forall ws, load_data_file file = Loaded t ws ->
                         file = Table t true true /\ load_data (Some t) = Loaded t ws).
  { intros ws H. destruct file as [|error|u pn an]; try discriminate.
    destruct (pn && an) eqn:E.
    - apply andb_prop in E. destruct E as [-> ->].
      rewrite load_data_file_typed in H.
      assert (Hu : Some u = Some t).
      { apply (proj1 (proj1 (load_data_typed_succeeds_iff (Some u) t))). eauto. }
      injection Hu as ->. split; [reflexivity | exact H].
    - destruct (load_data_file_not_numeric u pn an E) as (error & Hs). congruence. }
  split; [split|split].
  - intros (ws & H). destruct (T ws H) as [-> H'].
    split; [reflexivity|].
    apply (proj1 (proj1 (load_data_typed_succeeds_iff (Some t) t))). eauto.
  - intros (-> & Hl). rewrite load_data_file_typed.
    apply (proj2 (proj1 (load_data_typed_succeeds_iff (Some t) t))). auto.
  - intros ws H. destruct (T ws H) as [_ H'].
    apply (proj2 (load_data_typed_succeeds_iff (Some t) t) ws H').
  - intros Hne. destruct file as [|error|u pn an].
    + eexists. reflexivity.
    + eexists. reflexivity.
    + destruct (pn && an) eqn:E.
      * apply andb_prop in E. destruct E as [-> ->]. now elim (Hne u).
      * now apply load_data_file_not_numeric.
Qed.

Lemma load_data_succeeds_iff_witness :
  (exists warnings, load_data_file (Table (mkCsv all_columns [aged 5; aged 120]) true true)
                    = Loaded (mkCsv all_columns [aged 5; aged 120]) warnings) /\
  ~ NoDup (map session_id [aged 5; aged 120]) /\
  (exists error, load_data_file (Table (mkCsv all_columns [aged 5]) false true)
                 = Stopped error).
Proof.
  assert (L : load_data_file (Table (mkCsv all_columns [aged 5; aged 120]) true true)
              = Loaded (mkCsv all_columns [aged 5; aged 120])
                  ["Duplicate session IDs detected. Consider cleaning the dataset."])
    by (vm_compute; reflexivity).
  split; [eexists; exact L|]. split.
  - intros Hnd.
    pose proof (proj2 (proj1 (proj1 (proj2 (load_data_succeeds_iff
                  (Table (mkCsv all_columns [aged 5; aged 120]) true true)
                  (mkCsv all_columns [aged 5; aged 120]))) _ L)) Hnd) as H.
    discriminate H.
  - apply (proj2 (proj2 (load_data_succeeds_iff
                (Table (mkCsv all_columns [aged 5]) false true)
                (mkCsv all_columns [aged 5])))).
    intros u. discriminate.
Defined.

(** ** Date bounds of the sidebar *)

Lemma fold_min_le (t : Z) (ts : list Z) :
  In (fold_right Z.min t ts) (t :: ts) /\ forall x, In x (t :: ts) -> fold_right Z.min t ts <= x.
Proof.
  induction ts as [|a ts [IHin IHle]]; simpl.
  - split; [now left | intros x [<-|[]]; lia].
  - split.
    + destruct (Z.min_spec a (fold_right Z.min t ts)) as [[_ ->]|[_ ->]]; [tauto|].
      destruct IHin as [H|H]; [left; exact H | right; right; exact H].
    + intros x [<-|[<-|H]].
      * specialize (IHle t (or_introl eq_refl)). lia.
      * lia.
      * specialize (IHle x (or_intror H)). lia.
Qed.

Lemma fold_max_ge (t : Z) (ts : list Z) :
  forall x, In x (t :: ts) -> x <= fold_right Z.max t ts.
Proof.
  induction ts as [|a ts IH]; simpl.
  - intros x [<-|[]]; lia.
  - intros x [<-|[<-|H]].
    + specialize (IH t (or_introl eq_refl)). lia.
    + lia.
    + specialize (IH x (or_intror H)). lia.
Qed.

Lemma fold_max_in (t : Z) (ts : list Z) : In (fold_right Z.max t ts) (t :: ts).
Proof.
  induction ts as [|a ts IH]; simpl; [now left|].
  destruct (Z.max_spec a (fold_right Z.max t ts)) as [[_ ->]|[_ ->]]; [|tauto].
  destruct IH as [H|H]; [left; exact H | right; right; exact H].
Qed.

(** X16. The date bounds offered by the sidebar: without any valid sale date
    they are 2024-01-01 and 2024-12-31; otherwise the lower bound is the day
    of the earliest sale and the upper bound is the day of the latest sale,
    capped at today. So no sale is before the lower bound, every sale made
    up to today is not after the upper bound, and the bounds are in order
    exactly when the earliest sale is not in the future. *)
Theorem date_bounds_facts (df : DataFrame) (today : Z) :
  let min_date := fst (date_bounds df today) in
  let max_date := snd (date_bounds df today) in
  ((forall r, In r df -> sale_date r = None) ->
   min_date = default_min_date /\ max_date = default_max_date) /\
  ((exists r, In r df /\ sale_date r <> None) ->
   (exists r t, In r df /\ sale_date r = Some t /\ min_date = date_of t) /\
   (forall r t, In r df -> sale_date r = Some t -> min_date <= date_of t) /\
   (exists r t, In r df /\ sale_date r = Some t /\
                (forall r' t', In r' df -> sale_date r' = Some t' -> t' <= t) /\
                max_date = Z.min (date_of t) today) /\
   (forall r t, In r df -> sale_date r = Some t -> date_of t <= today ->
                date_of t <= max_date) /\
   max_date <= today /\
   (min_date <= max_date <-> min_date <= today)).
Proof.
  cbv zeta. unfold date_bounds. split.
  - intros Hall. rewrite (proj2 (omit_nil (map sale_date df))); [split; reflexivity|].
    intros x Hx. apply in_map_iff in Hx. destruct Hx as (r & <- & Hr). now apply Hall.
  - intros (r0 & Hr0 & Hs0).
    destruct (omit (map sale_date df)) as [|t ts] eqn:E.
    + exfalso. apply Hs0. apply (proj1 (omit_nil _) E). now apply in_map.
    + cbn [fst snd].
      destruct (fold_min_le t ts) as [Hmin_in Hmin_le].
      pose proof (fold_max_ge t ts) as Hmax_ge.
      pose proof (fold_max_in t ts) as Hmax_in.
      assert (Hdate : forall r x, In r df -> sale_date r = Some x -> In x (t :: ts)).
      { intros r x Hr Hx. rewrite <- E. apply (in_omit_map sale_date). exists r; auto. }
      assert (Mono : forall a b, a <= b -> date_of a <= date_of b).
      { intros a b Hab. unfold date_of. apply Z.div_le_mono; lia. }
      split; [|split; [|split; [|split; [|split]]]].
      * rewrite <- E in Hmin_in. apply (in_omit_map sale_date) in Hmin_in.
        destruct Hmin_in as (r & Hr & Hx). exists r, (fold_right Z.min t ts). auto.
      * intros r x Hr Hx. apply Mono, Hmin_le. apply (Hdate r x Hr Hx).
      * assert (Hin := Hmax_in). rewrite <- E in Hin.
        apply (in_omit_map sale_date) in Hin. destruct Hin as (r & Hr & Hx).
        exists r, (fold_right Z.max t ts). split; [exact Hr|]. split; [exact Hx|].
        split; [|reflexivity].
        intros r' t' Hr' Hx'. apply Hmax_ge. apply (Hdate r' t' Hr' Hx').
      * intros r x Hr Hx Htoday.
        pose proof (Mono _ _ (Hmax_ge x (Hdate r x Hr Hx))). lia.
      * lia.
      * pose proof (Mono _ _ (Hmax_ge _ Hmin_in)). lia.
Qed.

Lemma date_bounds_facts_witness :
  (exists r t, In r [aged 5] /\ sale_date r = Some t /\
               (forall r' t', In r' [aged 5] -> sale_date r' = Some t' -> t' <= t) /\
               snd (date_bounds [aged 5] 100) = Z.min (date_of t) 100) /\
  (fst (date_bounds [aged 5] 100) <= snd (date_bounds [aged 5] 100) <->
   fst (date_bounds [aged 5] 100) <= 100).
Proof.
  destruct (proj2 (date_bounds_facts [aged 5] 100)) as (_ & _ & H3 & _ & _ & H6).
  - exists (aged 5). split; [now left | discriminate].
  - split; [exact H3 | exact H6].
Defined.

(** ** Page layout *)

Lemma target_height_pos (size : positive * positive) : (0 < Layout.target_height size)%Q.
Proof.
  destruct size as [w h]. unfold Layout.target_height.
  assert (H : (0 < Z.pos h # w)%Q) by (unfold Qlt; simpl; lia). lra.
Qed.

(** X17. When the cursor starts within the page and every scaled image is
    at most 692 points high, every chart title is written between y = 150
    and y = 742, every image lies between the bottom margin y = 50 and the
    top margin y = 742, and an image is either on the page of its title,
    20 points below the title, or at the top of the next page (from
    y = 742 down), its title staying behind on the previous page. *)
Theorem charts_stay_within_margins (sizes : list (positive * positive)) :
  forall (page : nat) (y : Q),
    (y <= Layout.height - 50)%Q ->
    (forall size, In size sizes -> (Layout.target_height size <= 692)%Q) ->
    forall p, In p (Layout.place_charts sizes page y) ->
      (150 <= Layout.title_y p)%Q /\ (Layout.title_y p <= 742)%Q /\
      (50 <= Layout.image_bottom p)%Q /\ (Layout.image_bottom p < Layout.image_top p)%Q /\
      (Layout.image_top p <= 742)%Q /\
      (page <= Layout.title_page p)%nat /\
      ((Layout.image_page p = Layout.title_page p /\
        (Layout.image_top p == Layout.title_y p - 20)%Q) \/
       (Layout.image_page p = S (Layout.title_page p) /\
        (Layout.image_top p == 742)%Q /\
        (Layout.title_y p - 20 - (Layout.image_top p - Layout.image_bottom p) < 50)%Q)).
Proof.
  unfold Layout.height.
  induction sizes as [|size sizes IH]; intros page y Hy Hs p Hp; [destruct Hp|].
  pose proof (target_height_pos size) as Hpos.
  pose proof (Hs size (or_introl eq_refl)) as Hfit.
  cbn [Layout.place_charts] in Hp. unfold Layout.height in Hp.
  destruct (Qltb y 150) eqn:E1;
    [apply Qltb_true in E1 | apply Qltb_false in E1]; cbv beta iota zeta in Hp.
  - destruct (Qltb (792 - 50 - 20 - Layout.target_height size) 50) eqn:E2;
      [apply Qltb_true in E2 | apply Qltb_false in E2]; cbv beta iota zeta in Hp;
      (destruct Hp as [<-|Hp];
       [cbn [Layout.title_y Layout.image_bottom Layout.image_top Layout.title_page
               Layout.image_page];
        repeat split; try lra; try lia
       |apply IH in Hp;
        [destruct Hp as (H1 & H2 & H3 & H4 & H5 & H6 & H7);
         repeat split; try assumption; lia
        |lra
        |intros s Hin; apply Hs; now right]]).
    + right. repeat split; lra.
    + left. split; [reflexivity | lra].
  - destruct (Qltb (y - 20 - Layout.target_height size) 50) eqn:E2;
      [apply Qltb_true in E2 | apply Qltb_false in E2]; cbv beta iota zeta in Hp;
      (destruct Hp as [<-|Hp];
       [cbn [Layout.title_y Layout.image_bottom Layout.image_top Layout.title_page
               Layout.image_page];
        repeat split; try lra; try lia
       |apply IH in Hp;
        [destruct Hp as (H1 & H2 & H3 & H4 & H5 & H6 & H7);
         repeat split; try assumption; lia
        |lra
        |intros s Hin; apply Hs; now right]]).
    + right. repeat split; lra.
    + left. split; [reflexivity | lra].
Qed.

Lemma charts_stay_within_margins_witness :
  Forall (fun p => (150 <= Layout.title_y p)%Q /\ (50 <= Layout.image_bottom p)%Q)
         (Layout.place_charts [(1400, 300); (1400, 300)]%positive 0 160).
Proof.
  apply Forall_forall. intros p Hp.
  destruct (charts_stay_within_margins [(1400, 300); (1400, 300)]%positive 0 160
              ltac:(discriminate)
              ltac:(intros s [<-|[<-|[]]]; discriminate) p Hp) as (H1 & _ & H3 & _).
  split; assumption.
Defined.

(** ** What the export does to files that were there before *)

Module PdfExportSafety.
Import PdfExport.

Lemma build_charts_step (fig : Chart) (figs : list Chart) (charts : list (nat * Chart))
    (w : World) :
  build_charts (fig :: figs) charts w
  = if renders fig
    then build_charts figs (charts ++ [(next_tmp w, fig)])%list
                      (mkWorld (next_tmp w :: tmp_files w) (S (next_tmp w)))
    else (Raise (ValueError "write_image"),
          mkWorld (next_tmp w :: tmp_files w) (S (next_tmp w))).
Proof.
  cbn [build_charts]. unfold bind, NamedTemporaryFile, write_image.
  destruct (renders fig); reflexivity.
Qed.

Lemma embed_charts_step (q : nat) (fig : Chart) (charts : list (nat * Chart)) (w : World) :
  embed_charts ((q, fig) :: charts) w
  = if embeds fig
    then if existsb (Nat.eqb q) (tmp_files w)
         then embed_charts charts (mkWorld (remove Nat.eq_dec q (tmp_files w)) (next_tmp w))
         else (Raise FileNotFoundError, w)
    else (Raise OSError, w).
Proof.
  cbn [embed_charts]. unfold bind, drawImage, unlink.
  destruct (embeds fig); [|reflexivity].
  unfold ret. destruct (existsb (Nat.eqb q) (tmp_files w)); reflexivity.
Qed.

(** Whatever happens while the charts are built, no file disappears, file
    names only grow, and the files recorded in [charts] are the ones
    recorded before or new ones. *)
Lemma build_charts_keeps (figs : list Chart) :
  forall (charts : list (nat * Chart)) (w : World),
    (next_tmp w <= next_tmp (snd (build_charts figs charts w)))%nat /\
    incl (tmp_files w) (tmp_files (snd (build_charts figs charts w))) /\
    (forall cs, fst (build_charts figs charts w) = Ok cs ->
                forall p, In p (map fst cs) ->
                          In p (map fst charts) \/ (next_tmp w <= p)%nat).
Proof.
  induction figs as [|fig figs IH]; intros charts w.
  - simpl. split; [lia|]. split; [apply incl_refl|].
    intros cs E p Hp. injection E as <-. now left.
  - rewrite build_charts_step. destruct (renders fig).
    + destruct (IH (charts ++ [(next_tmp w, fig)])%list
                   (mkWorld (next_tmp w :: tmp_files w) (S (next_tmp w))))
        as (H1 & H2 & H3).
      cbn [next_tmp tmp_files] in H1, H2, H3.
      split; [lia|]. split.
      * intros p Hp. apply H2. now right.
      * intros cs E p Hp. destruct (H3 cs E p Hp) as [H|H]; [|right; lia].
        rewrite map_app in H. apply in_app_or in H.
        destruct H as [H|[<-|[]]]; [now left | right; simpl; lia].
    + cbn [fst snd next_tmp tmp_files].
      split; [lia|]. split; [intros p Hp; now right | discriminate].
Qed.

(** The embedding loop removes files of charts only. *)
Lemma embed_charts_keeps (charts : list (nat * Chart)) :
  forall (w : World) (p : nat),
    In p (tmp_files w) -> ~ In p (map fst charts) ->
    In p (tmp_files (snd (embed_charts charts w))).
Proof.
  induction charts as [|[q fig] charts IH]; intros w p Hp Hq; [exact Hp|].
  rewrite embed_charts_step.
  destruct (embeds fig); [|exact Hp].
  destruct (existsb (Nat.eqb q) (tmp_files w)); [|exact Hp].
  apply IH.
  - cbn [tmp_files]. apply in_in_remove; [|exact Hp].
    intros ->. apply Hq. now left.
  - intros H. apply Hq. now right.
Qed.

End PdfExportSafety.

(** X18. Whatever charts the report has and whichever of them fail to
    render or to embed, the export removes no temporary file that existed
    before it started: only files it created itself are unlinked. *)
Theorem export_keeps_earlier_files (figs : list PdfExport.Chart) (w : PdfExport.World) :
  (forall p, In p (PdfExport.tmp_files w) -> (p < PdfExport.next_tmp w)%nat) ->
  forall p, In p (PdfExport.tmp_files w) ->
            In p (PdfExport.tmp_files (snd (PdfExport.generate_pdf figs w))).
Proof.
  intros Hfresh p Hp.
  destruct (PdfExportSafety.build_charts_keeps figs [] w) as (H1 & H2 & H3).
  unfold PdfExport.generate_pdf, PdfExport.bind.
  destruct (PdfExport.build_charts figs [] w) as [[cs|e] w'] eqn:E; cbn [fst snd] in *.
  - apply PdfExportSafety.embed_charts_keeps; [now apply H2|].
    intros Hin. destruct (H3 cs eq_refl p Hin) as [[]|H].
    specialize (Hfresh p Hp). lia.
  - now apply H2.
Qed.

Lemma export_keeps_earlier_files_witness :
  In 0%nat (PdfExport.tmp_files
              (snd (PdfExport.generate_pdf
                      [PdfExport.mkChart "Sales by Channel" true true;
                       PdfExport.mkChart "Sales Progress" true false]
                      (PdfExport.mkWorld [0%nat] 1)))).
Proof.
  apply (export_keeps_earlier_files
           [PdfExport.mkChart "Sales by Channel" true true;
            PdfExport.mkChart "Sales Progress" true false]
           (PdfExport.mkWorld [0%nat] 1)).
  - intros p [<-|[]]. simpl. lia.
  - now left.
Defined.

(** ** The salesperson's revenue and the manager's pie chart *)

Lemma row_matches_salesperson (m : string -> option string -> bool)
    (co ca ch kw n : string) (s e : Z) (r : Row) :
  salesperson_selected (Some n) = Some n ->
  row_matches m co ca ch kw (Some n) s e r
  = row_matches m co ca ch kw None s e r && str_eq (salesperson r) n.
Proof.
  intros Hn. unfold row_matches. rewrite Hn. cbn [salesperson_selected].
  rewrite andb_true_r.
  rewrite <- !andb_assoc. f_equal. f_equal. f_equal. f_equal. apply andb_comm.
Qed.

(** X19. For a salesperson name [n] other than "" and "All": the revenue
    achieved that the Salesperson view shows for [n] is the amount of [n]'s
    slice in the manager's "Sales Distribution by Salesperson" computed with
    the same other criteria, and it is 0 when [n] has no slice. *)
Theorem salesperson_revenue_is_manager_slice (m : string -> option string -> bool)
    (df : DataFrame) (co ca ch kw n : string) (s e : Z) (target : Q) :
  salesperson_selected (Some n) = Some n ->
  let manager_df := filter_data m df co ca ch kw None s e in
  let person_df := filter_data m df co ca ch kw (Some n) s e in
  let slices := groupby_sum salesperson total_price (purchases_of manager_df) in
  let revenue := s_revenue_achieved (salesperson_dashboard person_df (Some n) s e target) in
  (forall v, In (n, v) slices -> v = revenue) /\
  (~ In n (map fst slices) -> revenue = 0%Q) /\
  revenue = s_revenue_achieved (pdf_salesperson_kpis person_df (Some n) s e target).
Proof.
  intros Hn manager_df person_df slices revenue.
  destruct (filter_data_is_one_mask m df co ca ch kw None s e) as (Em & _ & _).
  destruct (filter_data_is_one_mask m df co ca ch kw (Some n) s e) as (Ep & _ & _).
  destruct (person_df_is_working_subset m df (mkCriteria co ca ch kw (Some n) s e)) as [_ Hl].
  unfold working_subset in Hl. cbn [f_country f_category f_sales_channel f_keyword
                                     f_salesperson f_start_date f_end_date] in Hl.
  assert (R : revenue
              = col_sum total_price
                  (filter (fun r => str_eq (salesperson r) n) (purchases_of manager_df))).
  { subst revenue. unfold salesperson_dashboard. cbn [s_revenue_achieved].
    unfold live_person_purchases. fold person_df in Hl. rewrite Hl.
    fold successful_sale. subst person_df manager_df. rewrite Ep, Em.
    unfold purchases_of. rewrite !filter_filter. f_equal. apply filter_ext. intros r.
    rewrite (row_matches_salesperson m co ca ch kw n s e r Hn).
    destruct (row_matches m co ca ch kw None s e r), (str_eq (salesperson r) n),
             (successful_sale r); reflexivity. }
  split; [|split].
  - intros v Hv.
    destruct (groupby_sum_entries salesperson total_price (purchases_of manager_df))
      as (_ & _ & _ & Hval & _).
    rewrite (Hval n v Hv). symmetry. exact R.
  - intros Hnot. rewrite R.
    destruct (groupby_sum_entries salesperson total_price (purchases_of manager_df))
      as (_ & _ & Hkeys & _ & _).
    rewrite filter_all_false; [reflexivity|].
    intros r Hr. unfold str_eq. destruct (salesperson r) as [k|] eqn:Ek; [|reflexivity].
    destruct (String.eqb_spec k n) as [->|_]; [|reflexivity].
    exfalso. apply Hnot. apply Hkeys. exists r. auto.
  - reflexivity.
Qed.

Lemma salesperson_revenue_is_manager_slice_witness :
  let df := [purchase "Alice" "ProductA" 10; purchase "Bob" "ProductB" 100] in
  s_revenue_achieved
    (salesperson_dashboard
       (filter_data no_keyword_match df "All" "All" "All" "" (Some "Bob") 0 0)
       (Some "Bob") 0 0 1000) = 100%Q.
Proof.
  cbv zeta. symmetry.
  apply (proj1 (salesperson_revenue_is_manager_slice no_keyword_match
           [purchase "Alice" "ProductA" 10; purchase "Bob" "ProductB" 100]
           "All" "All" "All" "" "Bob" 0 0 1000 eq_refl) 100%Q).
  vm_compute. right. left. reflexivity.
Defined.

(** ** Instances *)

Lemma filter_data_is_one_mask_witness :
  In (purchase "Alice" "ProductA" 10)
     (filter_data no_keyword_match
        [purchase "Alice" "ProductA" 10; purchase "Bob" "ProductB" 100]
        "Botswana" "All" "All" "" (Some "Alice") 0 0).
Proof.
  apply (proj1 (proj2 (filter_data_is_one_mask no_keyword_match
           [purchase "Alice" "ProductA" 10; purchase "Bob" "ProductB" 100]
           "Botswana" "All" "All" "" (Some "Alice") 0 0))).
  split; [now left | reflexivity].
Defined.

Lemma groupby_sum_entries_witness :
  groupby_sum salesperson total_price [event "Alice" "ProductA" "Purchase" 10 200] <> [].
Proof.
  intros E.
  pose proof (proj1 (proj2 (proj2 (proj2 (proj2 (groupby_sum_entries salesperson total_price
                [event "Alice" "ProductA" "Purchase" 10 200]))))) E
                (event "Alice" "ProductA" "Purchase" 10 200) (or_introl eq_refl)) as H.
  discriminate H.
Defined.

Lemma avg_session_length_nan_witness :
  avg_session_length
    [mkRow None None None None None None None None None None None None None None None
           None (Some 5%Q) None] = None.
Proof.
  apply (proj2 (avg_session_length_nan _)). split; [discriminate|].
  intros r [<-|[]]. left. reflexivity.
Defined.

Lemma age_chart_adds_up_witness :
  has_value (age_group (aged 101)) = true <-> (0 <= 101)%Q /\ (101 <= 100)%Q.
Proof.
  apply (proj1 (proj2 (age_chart_adds_up [] "ProductA")) (aged 101) 101%Q). reflexivity.
Defined.

Lemma purchase_revenue_positive_witness :
  (0 < col_sum total_price (purchases_of [purchase "Alice" "ProductA" 10]))%Q.
Proof.
  apply (proj1 (proj2 (purchase_revenue_positive [purchase "Alice" "ProductA" 10]))).
  vm_compute. discriminate.
Defined.
